(** * APICalypseNow: the text-moderation batch client of [scripts.py]

    A shallow embedding of [scripts.py] and the properties of its four
    functions: [post_text_to_moderate] (submit), [get_moderation_result]
    (poll), [process_moderation_results] (interpret) and [process_file]
    (the batch runner).

    Python values are the values [response.json()] and a spreadsheet cell
    can hold.  Floats are IEEE-754 binary64 numbers (Rocq's primitive
    floats), integers are unbounded.  Code that can raise returns a [res];
    code that talks to the network, sleeps or mutates the data frame runs in
    the monad [M] over an explicit [state]. *)

From Stdlib Require Import ZArith String List Bool Lia.
From Stdlib Require Import PrimFloat FloatOps SpecFloat.
From stdpp Require Import base option list gmap strings.

Set Warnings "-inexact-float,-register-all".
#[local] Open Scope string_scope.
#[local] Open Scope Z_scope.

(** ** Python values *)

Inductive pyval : Type :=
| PNone
| PBool (b : bool)
| PInt (z : Z)
| PFloat (f : float)
| PStr (s : string)
| PList (l : list pyval)
| PDict (d : gmap string pyval).

(** A dict literal [{k1: v1, ...}]. *)
Definition obj (l : list (string * pyval)) : pyval := PDict (list_to_map l).

(** The exceptions the program raises itself, named after the message of the
    [Exception(...)] they stand for, and the built-in ones the operations on
    ill-shaped values raise.  All of them are instances of [Exception]. *)
Inductive exn : Type :=
| SubmissionError                          (* "Error: No ID found in the POST response." *)
| ModerationFailedError (payload : pyval)  (* f"Moderation failed: {result}" *)
| UnexpectedStatusError (status : pyval)   (* f"Unexpected status: {status}" *)
| MissingColumnError                       (* "... column is missing in the input file." *)
| AttributeError
| TypeError
| KeyError
| OverflowError
| ExternalError (msg : string).            (* raised by requests / pandas *)

Inductive res (A : Type) : Type :=
| Ok (a : A)
| Err (e : exn).
Arguments Ok {A} a.
Arguments Err {A} e.

Definition res_bind {A B} (r : res A) (k : A -> res B) : res B :=
  match r with
  | Ok a => k a
  | Err e => Err e
  end.

Notation "'let?' x ':=' r 'in' k" := (res_bind r (fun x => k))
  (at level 10, x name, r at level 100, k at level 200).

(** ** Numbers *)

(** The numeric value of a Python number; [bool] is a subclass of [int]. *)
Inductive pynum : Type :=
| NInt (z : Z)
| NFloat (f : float).

Definition as_num (v : pyval) : option pynum :=
  match v with
  | PBool b => Some (NInt (Z.b2z b))
  | PInt z => Some (NInt z)
  | PFloat f => Some (NFloat f)
  | _ => None
  end.

(** Exact comparison of a float with an integer, as CPython does for mixed
    operands; [None] when the float is a NaN. *)
Definition float_cmp_Z (f : float) (z : Z) : option comparison :=
  match Prim2SF f with
  | S754_nan => None
  | S754_infinity s => Some (if s then Lt else Gt)
  | S754_zero _ => Some (0 ?= z)
  | S754_finite s m e =>
      let v := if s then Z.neg m else Z.pos m in
      if 0 <=? e then Some (v * 2 ^ e ?= z) else Some (v ?= z * 2 ^ (- e))
  end.

(** [a > b] on numbers. *)
Definition num_gt (a b : pynum) : bool :=
  match a, b with
  | NInt x, NInt y => x >? y
  | NFloat x, NFloat y => PrimFloat.ltb y x
  | NFloat x, NInt y =>
      match float_cmp_Z x y with Some Gt => true | _ => false end
  | NInt x, NFloat y =>
      match float_cmp_Z y x with Some Lt => true | _ => false end
  end.

(** [a >= b] on numbers. *)
Definition num_ge (a b : pynum) : bool :=
  match a, b with
  | NInt x, NInt y => x >=? y
  | NFloat x, NFloat y => PrimFloat.leb y x
  | NFloat x, NInt y =>
      match float_cmp_Z x y with Some Gt | Some Eq => true | _ => false end
  | NInt x, NFloat y =>
      match float_cmp_Z y x with Some Lt | Some Eq => true | _ => false end
  end.

(** [a * 100]: the literal is an [int], converted to [100.0] for a float. *)
Definition num_mul100 (a : pynum) : pynum :=
  match a with
  | NInt x => NInt (x * 100)
  | NFloat x => NFloat (x * 100)%float
  end.

(** [v > h] and [v >= h] where [h] is a number: [TypeError] unless [v] is
    one too. *)
Definition py_gt (v : pyval) (h : pynum) : res bool :=
  match as_num v with
  | Some a => Ok (num_gt a h)
  | None => Err TypeError
  end.

Definition py_ge (v : pyval) (h : pynum) : res bool :=
  match as_num v with
  | Some a => Ok (num_ge a h)
  | None => Err TypeError
  end.

(** [float(n)]: round to nearest even, [OverflowError] beyond the range. *)
Definition py_float (n : pynum) : res float :=
  match n with
  | NFloat f => Ok f
  | NInt z =>
      match binary_normalize prec emax z 0 false with
      | S754_infinity _ => Err OverflowError
      | sf => Ok (SF2Prim sf)
      end
  end.

(** ** Operations on dicts, lists and strings *)

(** [v.get(k, dflt)]; only a dict has the method. *)
Definition py_get (v : pyval) (k : string) (dflt : pyval) : res pyval :=
  match v with
  | PDict d => Ok (default dflt (d !! k))
  | _ => Err AttributeError
  end.

Definition is_str (k : string) (v : pyval) : bool :=
  match v with
  | PStr s => String.eqb s k
  | _ => false
  end.

(** [k in v] for a string [k]: a key of a dict, an element of a list, a
    substring of a string. *)
Definition py_contains (k : string) (v : pyval) : res bool :=
  match v with
  | PDict d => Ok (bool_decide (is_Some (d !! k)))
  | PList l => Ok (existsb (is_str k) l)
  | PStr s => Ok (bool_decide (is_Some (String.index 0 k s)))
  | _ => Err TypeError
  end.

(** [v[k]] for a string [k]. *)
Definition py_getitem (v : pyval) (k : string) : res pyval :=
  match v with
  | PDict d =>
      match d !! k with
      | Some x => Ok x
      | None => Err KeyError
      end
  | _ => Err TypeError
  end.

Fixpoint chars (s : string) : list pyval :=
  match s with
  | EmptyString => []
  | String c s' => PStr (String c EmptyString) :: chars s'
  end.

(** What [for x in v] iterates over: the elements of a list, the keys of a
    dict, the characters of a string. *)
Definition py_iter (v : pyval) : res (list pyval) :=
  match v with
  | PList l => Ok l
  | PDict d => Ok ((fun kv => PStr (fst kv)) <$> map_to_list d)
  | PStr s => Ok (chars s)
  | _ => Err TypeError
  end.

(** ** [process_moderation_results] *)

(** The inner loop [for subitem in items] with its two loop variables.
    [highest_score] always holds a number: [0] at first, then a score that
    compared greater than a number. *)
Fixpoint scan_items (items : list pyval) (highest_category : pyval)
    (highest_score : pynum) : res pyval :=
  match items with
  | [] => Ok highest_category
  | subitem :: rest =>
      let? score := py_get subitem "likelihood_score" (PInt 0) in
      match as_num score with
      | None => Err TypeError
      | Some n =>
          if num_gt n highest_score
          then let? category := py_get subitem "category" (PStr "Unknown") in
               scan_items rest category n
          else scan_items rest highest_category highest_score
      end
  end.

Definition default_threshold : pynum := NFloat 0.2.

(** [results.get("content", {}).get("results", {})] *)
Definition moderation_results_of (results : pyval) : res pyval :=
  let? content := py_get results "content" (PDict ∅) in
  py_get content "results" (PDict ∅).

Definition process_moderation_results (results : pyval)
    (rejection_threshold : pynum) : res (pynum * pyval * string) :=
  let? moderation_results := moderation_results_of results in
  let? present := py_contains "text__moderation" moderation_results in
  if negb present then Ok (NInt 0, PStr "Unknown", "success")
  else
    let? section := py_getitem moderation_results "text__moderation" in
    let? text_results := py_get section "results" (PList []) in
    let? entries := py_iter text_results in
    match entries with
    | result :: _ =>
        let? nsfw_likelihood_score := py_get result "nsfw_likelihood_score" (PInt 0) in
        match as_num nsfw_likelihood_score with
        | None => Err TypeError
        | Some s =>
            let status :=
              if num_ge s rejection_threshold then "rejected" else "validated" in
            let? items := py_get result "items" (PList []) in
            let? subitems := py_iter items in
            let? highest_category := scan_items subitems (PStr "Unknown") (NInt 0) in
            Ok (num_mul100 s, highest_category, status)
        end
    | [] => Ok (NInt 0, PStr "Unknown", "succeeded")
    end.

(** A payload of the expected shape with one result entry. *)
Definition payload_of (entries : list pyval) : pyval :=
  obj [("content",
        obj [("status", PStr "succeeded");
             ("results",
              obj [("text__moderation", obj [("results", PList entries)])])])].

Definition subitem_of (category : string) (score : pyval) : pyval :=
  obj [("category", PStr category); ("likelihood_score", score)].

(** ** Shapes of payloads

    The vocabulary in which the properties of [process_moderation_results]
    are stated. *)

(** The payload has a text-moderation section whose results list is
    [entries]. *)
Definition has_entries (results : pyval) (entries : list pyval) : Prop :=
  exists m section,
    moderation_results_of results = Ok (PDict m) /\
    m !! "text__moderation" = Some (PDict section) /\
    section !! "results" = Some (PList entries).

(** The payload has no text-moderation section. *)
Definition lacks_section (results : pyval) : Prop :=
  exists m,
    moderation_results_of results = Ok (PDict m) /\
    m !! "text__moderation" = None.

(** The score of a result entry, [0] when it carries none. *)
Definition nsfw_of (entry : gmap string pyval) : option pynum :=
  as_num (default (PInt 0) (entry !! "nsfw_likelihood_score")).

(** The sub-items of a result entry, none when it has no ["items"]. *)
Definition subitems_of (entry : gmap string pyval) : option (list pyval) :=
  match entry !! "items" with
  | None => Some []
  | Some (PList l) => Some l
  | Some _ => None
  end.

(** The score of a sub-item, [0] when it carries none, and its label. *)
Definition score_of (subitem : pyval) : option pynum :=
  match subitem with
  | PDict d => as_num (default (PInt 0) (d !! "likelihood_score"))
  | _ => None
  end.

Definition label_of (subitem : pyval) : pyval :=
  match subitem with
  | PDict d => default (PStr "Unknown") (d !! "category")
  | _ => PStr "Unknown"
  end.

(** [n == 0] *)
Definition num_is_zero (n : pynum) : bool :=
  match n with
  | NInt z => z =? 0
  | NFloat f =>
      match Prim2SF f with
      | S754_zero _ => true
      | _ => false
      end
  end.

Definition status_of (s threshold : pynum) : string :=
  if num_ge s threshold then "rejected" else "validated".

(** ** The data frame *)

(** A table as [pandas] holds it after [read_excel]: the column labels and
    one map from label to cell per row; row [i] has index label [i]. *)
Record dataframe : Type := {
  columns : list string;
  rows : list (gmap string pyval)
}.

(** [df[c] = v]: overwrite the column in every row, append the label when it
    is new. *)
Definition set_column (c : string) (v : pyval) (t : dataframe) : dataframe :=
  {| columns := if bool_decide (c ∈ columns t) then columns t else columns t ++ [c];
     rows := (fun r => <[c := v]> r) <$> rows t |}.

(** [df.at[i, c] = v] for a row label [i] of the frame. *)
Definition set_at (i : nat) (c : string) (v : pyval) (t : dataframe) : dataframe :=
  {| columns := columns t;
     rows := alter (fun r => <[c := v]> r) i (rows t) |}.

(** [row[c]]; an absent cell reads as NaN, pandas' missing value. *)
Definition cell (c : string) (r : gmap string pyval) : pyval :=
  default (PFloat nan) (r !! c).

(** ** The outside world and the program state *)

Inductive event : Type :=
| EvPost (url : option string) (payload : pyval)
| EvGet (url : string)
| EvSleep (seconds : Z)
| EvWrite (index : nat) (error : exn)
| EvReadExcel (path : string)
| EvToExcel (path : string) (table : dataframe)
| EvPrint (msg : string).

(** Everything [scripts.py] takes from its environment: the two URLs from
    [os.getenv] ([None] when unset), the HTTP calls followed by
    [response.json()], the spreadsheet reader and writer, and [str] on a
    value that is not a string.  [W] is the state of that world. *)
Record env (W : Type) : Type := {
  API_URL_POST : option string;
  API_URL_GET : option string;
  requests_post : option string -> pyval -> W -> res pyval * W;
  requests_get : string -> W -> res pyval * W;
  read_excel : string -> W -> res dataframe * W;
  to_excel : string -> dataframe -> W -> res unit * W;
  repr : pyval -> string
}.
Arguments API_URL_POST {W} _.
Arguments API_URL_GET {W} _.
Arguments requests_post {W} _ _ _ _.
Arguments requests_get {W} _ _ _.
Arguments read_excel {W} _ _ _.
Arguments to_excel {W} _ _ _ _.
Arguments repr {W} _ _.

(** The world, the effects performed so far (oldest first) and the local
    variable [df] of [process_file], which is mutated in place. *)
Record state (W : Type) : Type := {
  world : W;
  trace : list event;
  df : dataframe
}.
Arguments world {W} _.
Arguments trace {W} _.
Arguments df {W} _.
Arguments Build_state {W} _ _ _.

(** How a run ends: with a value, with an exception, or still inside the
    [while True] loop when the fuel is spent. *)
Inductive outcome (A : Type) : Type :=
| Ret (a : A)
| Raise (e : exn)
| Unfinished.
Arguments Ret {A} a.
Arguments Raise {A} e.
Arguments Unfinished {A}.

Definition M (W A : Type) : Type := state W -> outcome A * state W.

Definition ret {W A} (a : A) : M W A := fun st => (Ret a, st).

Definition raise {W A} (e : exn) : M W A := fun st => (Raise e, st).

Definition bind {W A B} (m : M W A) (k : A -> M W B) : M W B :=
  fun st =>
    match m st with
    | (Ret a, st') => k a st'
    | (Raise e, st') => (Raise e, st')
    | (Unfinished, st') => (Unfinished, st')
    end.

Notation "'let!' x ':=' m 'in' k" := (bind m (fun x => k))
  (at level 10, x name, m at level 100, k at level 200).

Definition lift {W A} (r : res A) : M W A :=
  match r with
  | Ok a => ret a
  | Err e => raise e
  end.

(** [try: body except Exception as error: handler(error)].  The handler
    runs in the state the body left behind. *)
Definition try_except {W A} (body : M W A) (handler : exn -> M W A) : M W A :=
  fun st =>
    match body st with
    | (Raise e, st') => handler e st'
    | r => r
    end.

Definition emit {W} (e : event) : M W unit :=
  fun st => (Ret tt, Build_state (world st) (trace st ++ [e]) (df st)).

Definition modify_df {W} (f : dataframe -> dataframe) : M W unit :=
  fun st => (Ret tt, Build_state (world st) (trace st) (f (df st))).

Definition get_df {W} : M W dataframe :=
  fun st => (Ret (df st), st).

(** An external call: log the event, let the world answer. *)
Definition call {W A} (e : event) (f : W -> res A * W) : M W A :=
  fun st =>
    let (r, w') := f (world st) in
    lift r (Build_state w' (trace st ++ [e]) (df st)).

(** [s.replace(old, new)] for a non-empty [old]: every occurrence, left to
    right, without overlap.  [skip] counts the characters of a match still
    to drop. *)
Fixpoint replace_from (old new : string) (skip : nat) (s : string) : string :=
  match s with
  | EmptyString => EmptyString
  | String c s' =>
      match skip with
      | S k => replace_from old new k s'
      | O =>
          if String.prefix old s
          then new +:+ replace_from old new (Nat.pred (String.length old)) s'
          else String c (replace_from old new 0 s')
      end
  end.

Definition str_replace (old new s : string) : string := replace_from old new 0 s.

Definition wait_interval : Z := 5.

(** [result.get("content", {}).get("status", "")] *)
Definition reported_status (result : pyval) : res pyval :=
  let? content := py_get result "content" (PDict ∅) in
  py_get content "status" (PStr "").

Section Client.
Context {W : Type}.
Variable E : env W.

(** ** [post_text_to_moderate] *)

Definition post_text_to_moderate (text : pyval) : M W pyval :=
  let payload := obj [("text", text)] in
  let! result := call (EvPost (API_URL_POST E) payload)
                      (requests_post E (API_URL_POST E) payload) in
  let! has_id := lift (py_contains "id" result) in
  if has_id then lift (py_getitem result "id")
  else raise SubmissionError.

(** ** [get_moderation_result] *)

(** [API_URL_GET.replace("{execution_id}", execution_id)] *)
Definition poll_url (execution_id : pyval) : res string :=
  match API_URL_GET E with
  | None => Err AttributeError
  | Some template =>
      match execution_id with
      | PStr s => Ok (str_replace "{execution_id}" s template)
      | _ => Err TypeError
      end
  end.

(** The [while True] loop; one unit of fuel per iteration. *)
Fixpoint poll_loop (fuel : nat) (url : string) : M W pyval :=
  match fuel with
  | O => fun st => (Unfinished, st)
  | S fuel' =>
      let! result := call (EvGet url) (requests_get E url) in
      let! status := lift (reported_status result) in
      if is_str "succeeded" status then ret result
      else if is_str "failed" status then raise (ModerationFailedError result)
      else if is_str "processing" status then
        let! _ := emit (EvSleep wait_interval) in
        poll_loop fuel' url
      else raise (UnexpectedStatusError status)
  end.

Definition get_moderation_result (fuel : nat) (execution_id : pyval) : M W pyval :=
  let! url := lift (poll_url execution_id) in
  poll_loop fuel url.

End Client.

(** ** [process_file] *)

Definition text_column : string := "Données à tester".
Definition rate_column : string := "Taux de rejet (%)".
Definition category_column : string := "Catégorie".
Definition status_column : string := "Status".
Definition output_path : string := "SyntheticDataResult.xlsx".

Section Batch.
Context {W : Type}.
Variable E : env W.

(** [str(v)] *)
Definition py_str (v : pyval) : string :=
  match v with
  | PStr s => s
  | _ => repr E v
  end.

(** The body of the [try] block for the row labelled [index]. *)
Definition moderate_row (fuel : nat) (index : nat) (text : pyval) : M W unit :=
  let! execution_id := post_text_to_moderate E text in
  let! results := get_moderation_result E fuel execution_id in
  let! interpreted := lift (process_moderation_results results default_threshold) in
  match interpreted with
  | (rejection_chance, category, status) =>
      let! rate := lift (py_float rejection_chance) in
      let! _ := modify_df (set_at index rate_column (PFloat rate)) in
      let! _ := modify_df (set_at index category_column (PStr (py_str category))) in
      modify_df (set_at index status_column (PStr status))
  end.

(** The [except Exception as error] block. *)
Definition on_error (index : nat) (error : exn) : M W unit :=
  let! _ := emit (EvWrite index error) in
  modify_df (set_at index status_column (PStr "Error")).

(** One iteration of [for index, row in df.iterrows()]. *)
Definition process_row (fuel : nat) (index : nat) (text : pyval) : M W unit :=
  try_except (moderate_row fuel index text) (on_error index).

(** The iterations for the rows labelled [index], [index + 1], ... whose
    text cells are [texts]. *)
Fixpoint process_rows (fuel : nat) (index : nat) (texts : list pyval) : M W unit :=
  match texts with
  | [] => ret tt
  | text :: rest =>
      let! _ := process_row fuel index text in
      process_rows fuel (S index) rest
  end.

(** [tqdm] only reports progress and is left out. *)
Definition process_file (fuel : nat) (file_path : string) : M W unit :=
  let! table := call (EvReadExcel file_path) (read_excel E file_path) in
  let! _ := modify_df (fun _ => table) in
  if negb (bool_decide (text_column ∈ columns table))
  then raise MissingColumnError
  else
    let! _ := modify_df (set_column rate_column (PFloat 0)) in
    let! _ := modify_df (set_column category_column (PStr "")) in
    let! _ := modify_df (set_column status_column (PStr "")) in
    let! snapshot := get_df in
    let! _ := process_rows fuel 0 (cell text_column <$> rows snapshot) in
    let! result := get_df in
    let! _ := call (EvToExcel output_path result) (to_excel E output_path result) in
    emit (EvPrint "Results saved").

End Batch.

(** Submit, poll or interpret raises [e] for the text of a row, leaving the
    state [st']. *)
Inductive row_raises {W} (E : env W) (fuel : nat) (text : pyval)
    (st : state W) (e : exn) : state W -> Prop :=
| raises_submit st' :
    post_text_to_moderate E text st = (Raise e, st') ->
    row_raises E fuel text st e st'
| raises_poll execution_id st1 st' :
    post_text_to_moderate E text st = (Ret execution_id, st1) ->
    get_moderation_result E fuel execution_id st1 = (Raise e, st') ->
    row_raises E fuel text st e st'
| raises_interpret execution_id st1 results st' :
    post_text_to_moderate E text st = (Ret execution_id, st1) ->
    get_moderation_result E fuel execution_id st1 = (Ret results, st') ->
    process_moderation_results results default_threshold = Err e ->
    row_raises E fuel text st e st'.

(** The table after the three result columns were given their defaults. *)
Definition with_result_columns (table : dataframe) : dataframe :=
  set_column status_column (PStr "")
    (set_column category_column (PStr "")
       (set_column rate_column (PFloat 0) table)).

(** The line [tqdm.write] prints when a row fails. *)
Definition is_write (e : event) : bool :=
  match e with
  | EvWrite _ _ => true
  | _ => false
  end.

(** A computation that leaves [df] alone and only adds effects other than
    [tqdm.write] to the trace. *)
Definition quiet {W A} (m : M W A) : Prop :=
  forall st out st',
    m st = (out, st') ->
    df st' = df st /\
    exists new,
      trace st' = (trace st ++ new)%list /\
      Forall (fun e => is_write e = false) new.

(** The status strings a finished row can hold. *)
Definition row_statuses : list string :=
  ["Error"; "success"; "succeeded"; "rejected"; "validated"].

(** The reading of the row invariant in which a failed row gets the category
    "Unknown": a row for which the error line was written ends with status
    "Error", rate 0 and category "Unknown". *)
Definition failed_row_is_unknown : Prop :=
  forall (W : Type) (E : env W) fuel path (st : state W) table w' out st',
    read_excel E path (world st) = (Ok table, w') ->
    text_column ∈ columns table ->
    process_file E fuel path st = (out, st') ->
    forall i e,
      EvWrite i e ∈ trace st' ->
      EvWrite i e ∉ trace st ->
      exists r,
        rows (df st') !! i = Some r /\
        r !! status_column = Some (PStr "Error") /\
        r !! rate_column = Some (PFloat 0) /\
        r !! category_column = Some (PStr "Unknown").

(** The world answers the next GET requests for [url] with [responses], in
    order, and is then in state [w']. *)
Inductive serves {W} (E : env W) (url : string) : W -> list pyval -> W -> Prop :=
| serves_nil w : serves E url w [] w
| serves_cons w r w1 responses w' :
    requests_get E url w = (Ok r, w1) ->
    serves E url w1 responses w' ->
    serves E url w (r :: responses) w'.

(** The effects of [n] polls that each saw "processing". *)
Definition waiting (url : string) (n : nat) : list event :=
  concat (replicate n [EvGet url; EvSleep wait_interval]).

(** ** A scripted world

    The world of a test: the answers to the POST requests and to the GET
    requests, served in order; a request beyond the script fails. *)

Record script : Type := {
  posts : list (res pyval);
  gets : list (res pyval)
}.

Definition script_post (w : script) : res pyval * script :=
  match posts w with
  | r :: rest => (r, {| posts := rest; gets := gets w |})
  | [] => (Err (ExternalError "no response"), w)
  end.

Definition script_get (w : script) : res pyval * script :=
  match gets w with
  | r :: rest => (r, {| posts := posts w; gets := rest |})
  | [] => (Err (ExternalError "no response"), w)
  end.

(** The environment in which [read_excel] yields [table]. *)
Definition script_env (table : dataframe) : env script := {|
  API_URL_POST := Some "https://api.test/moderation";
  API_URL_GET := Some "https://api.test/moderation/{execution_id}";
  requests_post := fun _ _ => script_post;
  requests_get := fun _ => script_get;
  read_excel := fun _ w => (Ok table, w);
  to_excel := fun _ _ w => (Ok tt, w);
  repr := fun _ => "<value>"
|}.

Definition no_table : dataframe := {| columns := []; rows := [] |}.

Definition start {W} (w : W) : state W := Build_state w [] no_table.

(** A poll response with the given status. *)
Definition response_of (status : string) : pyval :=
  obj [("content", obj [("status", PStr status)])].

(** ** Sample payloads *)

(** The result entries of the threshold examples. *)
Definition entry_half : gmap string pyval :=
  {[ "nsfw_likelihood_score" := PFloat 0.5 ]}.

Definition entry_tenth : gmap string pyval :=
  {[ "nsfw_likelihood_score" := PFloat 0.1 ]}.

(** Sub-items whose scores all equal 0: a float zero, an integer zero, an
    absent score and a negative zero. *)
Definition zero_items : list pyval :=
  [subitem_of "A" (PFloat 0); subitem_of "B" (PInt 0);
   obj [("category", PStr "C")]; subitem_of "D" (PFloat (-0))].

(** The sub-items of the tie example. *)
Definition tie_items : list pyval :=
  [subitem_of "A" (PFloat 0.3); subitem_of "B" (PFloat 0.9);
   subitem_of "C" (PFloat 0.9)].

(** An entry whose only sub-item has score 0. *)
Definition entry_single_zero : gmap string pyval :=
  {[ "items" := PList [subitem_of "A" (PFloat 0)] ]}.

(** The reading of the category rule without a condition on the maximum: the
    category is the label of the first sub-item holding the maximum score,
    whatever that maximum is. *)
Definition category_is_first_maximum : Prop :=
  forall results entry rest s t pre subitem post n,
    has_entries results (PDict entry :: rest) ->
    nsfw_of entry = Some s ->
    entry !! "items" = Some (PList (pre ++ subitem :: post)) ->
    score_of subitem = Some n ->
    Forall (fun x => exists m, score_of x = Some m /\ num_gt n m = true) pre ->
    Forall (fun x => exists m, score_of x = Some m /\ num_gt m n = false) post ->
    process_moderation_results results t =
      Ok (num_mul100 s, label_of subitem, status_of s t).

(** ** Sample worlds *)

Definition url_42 : string := "https://api.test/moderation/42".

(** The API answers the POST with an identifier, or without one. *)
Definition world_with_id : script :=
  {| posts := [Ok (obj [("id", PStr "42")])]; gets := [] |}.

Definition world_without_id : script :=
  {| posts := [Ok (obj [("detail", PStr "quota exceeded")])]; gets := [] |}.

(** The job is reported as processing twice, then as succeeded. *)
Definition world_slow : script :=
  {| posts := [];
     gets := [Ok (response_of "processing"); Ok (response_of "processing");
              Ok (response_of "succeeded")] |}.

(** The job is reported as processing once, then as failed. *)
Definition world_failing : script :=
  {| posts := [];
     gets := [Ok (response_of "processing"); Ok (response_of "failed")] |}.

(** ** Sample batches *)

Definition input_path : string := "input.xlsx".

(** Three rows of text. *)
Definition three_rows : dataframe :=
  {| columns := [text_column];
     rows := [ {[ text_column := PStr "first" ]};
               {[ text_column := PStr "second" ]};
               {[ text_column := PStr "third" ]} ] |}.

(** The submit of the second row fails at the transport; the first and the
    third row are moderated at once. *)
Definition world_row2_fails : script :=
  {| posts := [Ok (obj [("id", PStr "1")]);
               Err (ExternalError "connection reset");
               Ok (obj [("id", PStr "3")])];
     gets := [Ok (payload_of [obj [("nsfw_likelihood_score", PFloat 0.5);
                                   ("items", PList [subitem_of "A" (PFloat 0.3)])]]);
              Ok (payload_of [obj [("nsfw_likelihood_score", PFloat 0.1);
                                   ("items", PList tie_items)]])] |}.

Definition outcome_row (text : string) (rate : float) (category status : string)
    : gmap string pyval :=
  list_to_map [(text_column, PStr text); (rate_column, PFloat rate);
               (category_column, PStr category); (status_column, PStr status)].

Definition three_outcomes : dataframe :=
  {| columns := [text_column; rate_column; category_column; status_column];
     rows := [ outcome_row "first" 50 "A" "rejected";
               outcome_row "second" 0 "" "Error";
               outcome_row "third" 10 "B" "validated" ] |}.

Definition post_url : option string := Some "https://api.test/moderation".

Definition trace_row2_fails : list event :=
  [EvReadExcel input_path;
   EvPost post_url (obj [("text", PStr "first")]);
   EvGet "https://api.test/moderation/1";
   EvPost post_url (obj [("text", PStr "second")]);
   EvWrite 1 (ExternalError "connection reset");
   EvPost post_url (obj [("text", PStr "third")]);
   EvGet "https://api.test/moderation/3";
   EvToExcel output_path three_outcomes;
   EvPrint "Results saved"].

(** A table without the text column. *)
Definition wrong_header : dataframe :=
  {| columns := ["Texte"]; rows := [ {[ "Texte" := PStr "first" ]} ] |}.

(** One row whose submit fails at the transport. *)
Definition one_row : dataframe :=
  {| columns := [text_column]; rows := [ {[ text_column := PStr "first" ]} ] |}.

Definition world_down : script :=
  {| posts := [Err (ExternalError "connection reset")]; gets := [] |}.

(** ** The interactive runner and the menu *)

(** The console of the operator: [input(prompt)], which can fail (end of
    input), the digits [f"{x:.2f}"] gives for a float and [str(error)]. *)
Record console (W : Type) : Type := {
  input : string -> W -> res string * W;
  format_2f : float -> string;
  message : exn -> string
}.
Arguments input {W} _ _ _.
Arguments format_2f {W} _ _.
Arguments message {W} _ _.

Section Interactive.
Context {W : Type}.
Variable E : env W.
Variable C : console W.

(** [input(prompt)]; the prompt and the answer belong to the console. *)
Definition ask (prompt : string) : M W string :=
  fun st =>
    let (r, w') := input C prompt (world st) in
    lift r (Build_state w' (trace st) (df st)).

Definition print (msg : string) : M W unit := emit (EvPrint msg).

(** ["\n--- Results ---"] *)
Definition results_banner : string :=
  String (Ascii.ascii_of_nat 10) "--- Results ---".

(** The [try] block of [test_single_text].  The format [:.2f] first converts
    an integer rate to a float, which raises [OverflowError] beyond the range
    of a float; the banner is printed by then. *)
Definition moderate_text (fuel : nat) (text : string) : M W unit :=
  let! execution_id := post_text_to_moderate E (PStr text) in
  let! results := get_moderation_result E fuel execution_id in
  let! interpreted := lift (process_moderation_results results default_threshold) in
  match interpreted with
  | (rejection_chance, category, status) =>
      let! _ := print results_banner in
      let! rate := lift (py_float rejection_chance) in
      let! _ := print ("Rejection Chance: " +:+ format_2f C rate +:+ "%") in
      let! _ := print ("Category: " +:+ py_str E category) in
      print ("Status: " +:+ status)
  end.

Definition report_error (error : exn) : M W unit :=
  print ("Error: " +:+ message C error).

Definition test_single_text (fuel : nat) : M W unit :=
  let! text := ask "Enter the text to moderate: " in
  try_except (moderate_text fuel text) report_error.

(** The body of [if __name__ == "__main__"]. *)
Definition main (fuel : nat) : M W unit :=
  let! _ := print "Choose an option:" in
  let! _ := print "1. Process a complete file" in
  let! _ := print "2. Test a single input manually" in
  let! choice := ask "Your choice (1 or 2): " in
  if String.eqb choice "1" then
    let! input_file := ask "Enter the path to the input Excel file: " in
    try_except (process_file E fuel input_file) report_error
  else if String.eqb choice "2" then test_single_text fuel
  else print "Invalid choice. Please restart the script.".

End Interactive.

Definition menu : list event :=
  [EvPrint "Choose an option:"; EvPrint "1. Process a complete file";
   EvPrint "2. Test a single input manually"].

(** ** More sample worlds *)

(** A world in which every job stays in "processing". *)
Definition busy_env : env unit := {|
  API_URL_POST := Some "https://api.test/moderation";
  API_URL_GET := Some "https://api.test/moderation/{execution_id}";
  requests_post := fun _ _ w => (Ok (obj [("id", PStr "42")]), w);
  requests_get := fun _ w => (Ok (response_of "processing"), w);
  read_excel := fun _ w => (Ok no_table, w);
  to_excel := fun _ _ w => (Ok tt, w);
  repr := fun _ => "<value>"
|}.

(** An operator who answers the menu with [choice] and every other prompt
    with [answer]. *)
Definition operator {W} (choice answer : string) : console W := {|
  input := fun prompt w =>
    (Ok (if String.eqb prompt "Your choice (1 or 2): " then choice else answer), w);
  format_2f := fun _ => "<rate>";
  message := fun _ => "<error>"
|}.

(** An environment without a poll URL. *)
Definition env_without_get_url : env script := {|
  API_URL_POST := Some "https://api.test/moderation";
  API_URL_GET := None;
  requests_post := fun _ _ => script_post;
  requests_get := fun _ => script_get;
  read_excel := fun _ w => (Ok no_table, w);
  to_excel := fun _ _ w => (Ok tt, w);
  repr := fun _ => "<value>"
|}.

(** A table with the text column and no row. *)
Definition no_rows : dataframe := {| columns := [text_column]; rows := [] |}.

(** A table with a second column. *)
Definition two_columns : dataframe :=
  {| columns := [text_column; "Source"];
     rows := [ list_to_map [(text_column, PStr "first"); ("Source", PStr "forum")] ] |}.

Definition world_one_ok : script :=
  {| posts := [Ok (obj [("id", PStr "1")])];
     gets := [Ok (payload_of [obj [("nsfw_likelihood_score", PFloat 0.5);
                                   ("items", PList [subitem_of "A" (PFloat 0.3)])]])] |}.

(** An environment in which the input file cannot be read, and one in which
    the output file cannot be written. *)
Definition env_unreadable : env script := {|
  API_URL_POST := Some "https://api.test/moderation";
  API_URL_GET := Some "https://api.test/moderation/{execution_id}";
  requests_post := fun _ _ => script_post;
  requests_get := fun _ => script_get;
  read_excel := fun _ w => (Err (ExternalError "file not found"), w);
  to_excel := fun _ _ w => (Ok tt, w);
  repr := fun _ => "<value>"
|}.

Definition env_unwritable (table : dataframe) : env script := {|
  API_URL_POST := Some "https://api.test/moderation";
  API_URL_GET := Some "https://api.test/moderation/{execution_id}";
  requests_post := fun _ _ => script_post;
  requests_get := fun _ => script_get;
  read_excel := fun _ w => (Ok table, w);
  to_excel := fun _ _ w => (Err (ExternalError "permission denied"), w);
  repr := fun _ => "<value>"
|}.

Definition payload_half : pyval :=
  payload_of [obj [("nsfw_likelihood_score", PFloat 0.5);
                   ("items", PList [subitem_of "A" (PFloat 0.3)])]].

(** A score that is an integer beyond the range of a float. *)
Definition world_huge_score : script :=
  {| posts := [Ok (obj [("id", PStr "1")])];
     gets := [Ok (payload_of [obj [("nsfw_likelihood_score", PInt (2 ^ 1024))]])] |}.

(** ** Counting requests *)

Definition is_post (e : event) : bool :=
  match e with
  | EvPost _ _ => true
  | _ => false
  end.

(** The POST requests among some effects, in order: where each was sent
    and what it carried. *)
Fixpoint posted (events : list event) : list (option string * pyval) :=
  match events with
  | [] => []
  | EvPost url payload :: rest => (url, payload) :: posted rest
  | _ :: rest => posted rest
  end.

(** The request submit makes for a text. *)
Definition request_for {W} (E : env W) (text : pyval) : option string * pyval :=
  (API_URL_POST E, obj [("text", text)]).

(** A computation that only adds effects outside the class [p]. *)
Definition silent {W A} (p : event -> bool) (m : M W A) : Prop :=
  forall st out st',
    m st = (out, st') ->
    exists new,
      trace st' = (trace st ++ new)%list /\
      Forall (fun e => p e = false) new.

(** * Properties *)

Example str_replace_url :
  str_replace "{execution_id}" "42" "https://api/x/{execution_id}/y{execution_id}"
  = "https://api/x/42/y42".
Proof. reflexivity. Qed.

Example interpret_half :
  process_moderation_results
    (payload_of [obj [("nsfw_likelihood_score", PFloat 0.5)]]) (NFloat 0.2)
  = Ok (NFloat 50, PStr "Unknown", "rejected").
Proof. vm_compute. reflexivity. Qed.

Example interpret_tie :
  process_moderation_results
    (payload_of [obj [("nsfw_likelihood_score", PFloat 0.1);
                      ("items", PList [subitem_of "A" (PFloat 0.3);
                                       subitem_of "B" (PFloat 0.9);
                                       subitem_of "C" (PFloat 0.9)])]])
    (NFloat 0.2)
  = Ok (NFloat 10, PStr "B", "validated").
Proof. vm_compute. reflexivity. Qed.


(** ** The interpreter *)

Section Interpreter.

Implicit Types (results subitem : pyval) (entry : gmap string pyval).
Implicit Types (items : list pyval) (s t n h : pynum).

Lemma scan_items_step subitem items c h n :
  score_of subitem = Some n ->
  scan_items (subitem :: items) c h =
    if num_gt n h then scan_items items (label_of subitem) n
    else scan_items items c h.
Proof.
  destruct subitem; simpl; try discriminate.
  intros ->. destruct (num_gt n h); reflexivity.
Qed.

(** Sub-items that do not beat the running score leave the category alone. *)
Lemma scan_items_keep items c h :
  Forall (fun x => exists n, score_of x = Some n /\ num_gt n h = false) items ->
  scan_items items c h = Ok c.
Proof.
  induction 1 as [|x l (n & Hn & Hgt) _ IH]; [reflexivity|].
  rewrite (scan_items_step _ _ _ _ _ Hn), Hgt. exact IH.
Qed.

(** Well-typed sub-items never make the loop raise. *)
Lemma scan_items_total items c h :
  Forall (fun x => is_Some (score_of x)) items ->
  exists c', scan_items items c h = Ok c'.
Proof.
  intros Hall. revert c h.
  induction Hall as [|x l [n Hn] _ IH]; intros c h; [by exists c|].
  rewrite (scan_items_step _ _ _ _ _ Hn).
  destruct (num_gt n h); apply IH.
Qed.

(** The loop selects a sub-item that beats the initial score and everything
    before it, and that nothing after it beats. *)
Lemma scan_items_select pre subitem post c h n :
  score_of subitem = Some n ->
  num_gt n h = true ->
  Forall (fun x => exists m, score_of x = Some m /\ num_gt n m = true) pre ->
  Forall (fun x => exists m, score_of x = Some m /\ num_gt m n = false) post ->
  scan_items (pre ++ subitem :: post) c h = Ok (label_of subitem).
Proof.
  intros Hn Hh Hpre Hpost. revert c h Hh.
  induction Hpre as [|x l (m & Hm & Hgt) _ IH]; intros c h Hh; simpl app.
  - rewrite (scan_items_step _ _ _ _ _ Hn), Hh.
    by apply scan_items_keep.
  - rewrite (scan_items_step _ _ _ _ _ Hm).
    destruct (num_gt m h); by apply IH.
Qed.

Lemma py_get_dict (d : gmap string pyval) k v :
  py_get (PDict d) k v = Ok (default v (d !! k)).
Proof. reflexivity. Qed.

Lemma py_contains_dict (d : gmap string pyval) k :
  py_contains k (PDict d) = Ok (bool_decide (is_Some (d !! k))).
Proof. reflexivity. Qed.

(** What the function does on a payload with a first entry. *)
Lemma interpret_first_entry results entry rest s items t :
  has_entries results (PDict entry :: rest) ->
  nsfw_of entry = Some s ->
  subitems_of entry = Some items ->
  process_moderation_results results t =
    let? category := scan_items items (PStr "Unknown") (NInt 0) in
    Ok (num_mul100 s, category, status_of s t).
Proof.
  intros (m & sec & Hm & Hsec & Hres) Hs Hitems.
  unfold process_moderation_results.
  rewrite Hm; cbn [res_bind].
  rewrite py_contains_dict, bool_decide_true by eauto; cbn [res_bind negb].
  unfold py_getitem; rewrite Hsec; cbn [res_bind].
  rewrite py_get_dict, Hres; cbn [res_bind default from_option id py_iter].
  rewrite py_get_dict; cbn [res_bind].
  unfold nsfw_of in Hs; rewrite Hs.
  rewrite py_get_dict; cbn [res_bind].
  unfold subitems_of in Hitems.
  destruct (entry !! "items") as [[]|]; simplify_eq; reflexivity.
Qed.

End Interpreter.

Lemma num_is_zero_not_gt n : num_is_zero n = true -> num_gt n (NInt 0) = false.
Proof.
  destruct n as [z|f]; simpl.
  - intros Hz. apply Z.eqb_eq in Hz. subst z. reflexivity.
  - unfold float_cmp_Z. destruct (Prim2SF f); try discriminate. reflexivity.
Qed.

Lemma has_entries_payload_of entries : has_entries (payload_of entries) entries.
Proof.
  eexists _, _. split; [|split].
  - vm_compute. reflexivity.
  - vm_compute. reflexivity.
  - vm_compute. reflexivity.
Qed.

(** C1: on a payload whose first result entry carries the score [s] (and
    well-typed sub-items), for every threshold [t], the rejection percentage
    is [s * 100] and the status is "rejected" if [s >= t], else "validated";
    with [s = 0.5], [t = 0.2] this is ("rejected", 50.0) and with [s = 0.1],
    [t = 0.2] it is ("validated", 10.0). *)
Theorem interpret_score_and_status :
  (forall results entry rest s items t,
      has_entries results (PDict entry :: rest) ->
      nsfw_of entry = Some s ->
      subitems_of entry = Some items ->
      Forall (fun x => is_Some (score_of x)) items ->
      exists category,
        process_moderation_results results t =
          Ok (num_mul100 s, category,
              if num_ge s t then "rejected" else "validated")) /\
  (forall results entry rest items,
      has_entries results (PDict entry :: rest) ->
      entry !! "nsfw_likelihood_score" = Some (PFloat 0.5) ->
      subitems_of entry = Some items ->
      Forall (fun x => is_Some (score_of x)) items ->
      exists category,
        process_moderation_results results (NFloat 0.2) =
          Ok (NFloat 50, category, "rejected")) /\
  (forall results entry rest items,
      has_entries results (PDict entry :: rest) ->
      entry !! "nsfw_likelihood_score" = Some (PFloat 0.1) ->
      subitems_of entry = Some items ->
      Forall (fun x => is_Some (score_of x)) items ->
      exists category,
        process_moderation_results results (NFloat 0.2) =
          Ok (NFloat 10, category, "validated")).
Proof.
  assert (General : forall results entry rest s items t,
      has_entries results (PDict entry :: rest) ->
      nsfw_of entry = Some s ->
      subitems_of entry = Some items ->
      Forall (fun x => is_Some (score_of x)) items ->
      exists category,
        process_moderation_results results t =
          Ok (num_mul100 s, category, status_of s t)).
  { intros results entry rest s items t He Hs Hi Hty.
    destruct (scan_items_total items (PStr "Unknown") (NInt 0) Hty) as [c Hc].
    exists c. rewrite (interpret_first_entry _ _ _ _ _ t He Hs Hi), Hc.
    reflexivity. }
  split; [exact General|split].
  - intros results entry rest items He Hs Hi Hty.
    apply (General results entry rest (NFloat 0.5) items (NFloat 0.2)); auto.
    unfold nsfw_of. rewrite Hs. reflexivity.
  - intros results entry rest items He Hs Hi Hty.
    apply (General results entry rest (NFloat 0.1) items (NFloat 0.2)); auto.
    unfold nsfw_of. rewrite Hs. reflexivity.
Qed.

Lemma interpret_score_and_status_witness :
  exists category,
    process_moderation_results (payload_of [PDict entry_half]) (NFloat 0.2) =
      Ok (num_mul100 (NFloat 0.5), category,
          if num_ge (NFloat 0.5) (NFloat 0.2) then "rejected" else "validated").
Proof.
  apply (proj1 interpret_score_and_status
           (payload_of [PDict entry_half]) entry_half [] (NFloat 0.5) []).
  - apply has_entries_payload_of.
  - reflexivity.
  - reflexivity.
  - constructor.
Defined.

(** C6: a payload without the text-moderation section yields exactly
    (0, "Unknown", "success"); a payload whose text-moderation results list is
    present and empty yields exactly (0, "Unknown", "succeeded"); the two
    status strings differ. *)
Theorem interpret_no_entry :
  (forall results t,
      lacks_section results ->
      process_moderation_results results t = Ok (NInt 0, PStr "Unknown", "success")) /\
  (forall results t,
      has_entries results [] ->
      process_moderation_results results t = Ok (NInt 0, PStr "Unknown", "succeeded")) /\
  "success" <> "succeeded".
Proof.
  split; [|split].
  - intros results t (m & Hm & Hnone).
    unfold process_moderation_results.
    rewrite Hm; cbn [res_bind].
    rewrite py_contains_dict, bool_decide_false; [reflexivity|].
    rewrite Hnone. by intros [? ?].
  - intros results t (m & sec & Hm & Hsec & Hres).
    unfold process_moderation_results.
    rewrite Hm; cbn [res_bind].
    rewrite py_contains_dict, bool_decide_true by eauto; cbn [res_bind negb].
    unfold py_getitem; rewrite Hsec; cbn [res_bind].
    rewrite py_get_dict, Hres. reflexivity.
  - discriminate.
Qed.

Lemma interpret_no_entry_witness :
  process_moderation_results (response_of "succeeded") default_threshold
    = Ok (NInt 0, PStr "Unknown", "success") /\
  process_moderation_results (payload_of []) default_threshold
    = Ok (NInt 0, PStr "Unknown", "succeeded").
Proof.
  split.
  - apply (proj1 interpret_no_entry).
    exists ∅. split; vm_compute; reflexivity.
  - apply (proj1 (proj2 interpret_no_entry)).
    apply has_entries_payload_of.
Defined.

(** C10: when every sub-item of the first result entry has a score equal to
    0 (or none, which reads as 0), the category is "Unknown", however many
    sub-items there are: a score of 0 never beats the initial highest score
    0 under the strict comparison. *)
Theorem interpret_zero_scores results entry rest s items t :
  has_entries results (PDict entry :: rest) ->
  nsfw_of entry = Some s ->
  entry !! "items" = Some (PList items) ->
  items <> [] ->
  Forall (fun x => exists n, score_of x = Some n /\ num_is_zero n = true) items ->
  process_moderation_results results t =
    Ok (num_mul100 s, PStr "Unknown", status_of s t).
Proof.
  intros He Hs Hi _ Hzero.
  rewrite (interpret_first_entry _ _ _ _ items t He Hs)
    by (unfold subitems_of; rewrite Hi; reflexivity).
  rewrite scan_items_keep; [reflexivity|].
  eapply Forall_impl; [exact Hzero|].
  intros x (n & Hn & Hz). exists n. split; [exact Hn|].
  by apply num_is_zero_not_gt.
Qed.

Lemma interpret_zero_scores_witness :
  process_moderation_results
    (payload_of [obj [("nsfw_likelihood_score", PFloat 0.5); ("items", PList zero_items)]])
    default_threshold
  = Ok (NFloat 50, PStr "Unknown", "rejected").
Proof.
  apply (interpret_zero_scores _
           (list_to_map [("nsfw_likelihood_score", PFloat 0.5);
                         ("items", PList zero_items)]) [] (NFloat 0.5) zero_items).
  - apply has_entries_payload_of.
  - reflexivity.
  - reflexivity.
  - discriminate.
  - repeat constructor; eexists; (split; [reflexivity|reflexivity]).
Defined.

(** C5, counterexample: a single sub-item labelled "A" with score 0.0 holds
    the maximum, yet the category is "Unknown". *)
Lemma category_is_first_maximum_fails : ~ category_is_first_maximum.
Proof.
  intros Claim.
  specialize (Claim (payload_of [PDict entry_single_zero]) entry_single_zero []
                (NInt 0) default_threshold [] (subitem_of "A" (PFloat 0)) []
                (NFloat 0) (has_entries_payload_of _)).
  specialize (Claim eq_refl eq_refl eq_refl (List.Forall_nil _) (List.Forall_nil _)).
  vm_compute in Claim. discriminate Claim.
Qed.

(** C5, amended: the category is the label of the first sub-item holding the
    maximum score provided that maximum is greater than 0 (every earlier
    sub-item scores strictly less, no later one scores more); when no
    sub-item scores more than 0, in particular when there is none, it is
    "Unknown"; for [A:0.3, B:0.9, C:0.9] it is "B". *)
Theorem interpret_category :
  (forall results entry rest s t pre subitem post n,
      has_entries results (PDict entry :: rest) ->
      nsfw_of entry = Some s ->
      entry !! "items" = Some (PList (pre ++ subitem :: post)) ->
      score_of subitem = Some n ->
      num_gt n (NInt 0) = true ->
      Forall (fun x => exists m, score_of x = Some m /\ num_gt n m = true) pre ->
      Forall (fun x => exists m, score_of x = Some m /\ num_gt m n = false) post ->
      process_moderation_results results t =
        Ok (num_mul100 s, label_of subitem, status_of s t)) /\
  (forall results entry rest s t items,
      has_entries results (PDict entry :: rest) ->
      nsfw_of entry = Some s ->
      subitems_of entry = Some items ->
      Forall (fun x => exists m, score_of x = Some m /\ num_gt m (NInt 0) = false) items ->
      process_moderation_results results t =
        Ok (num_mul100 s, PStr "Unknown", status_of s t)) /\
  (forall results entry rest s t,
      has_entries results (PDict entry :: rest) ->
      nsfw_of entry = Some s ->
      entry !! "items" = Some (PList tie_items) ->
      process_moderation_results results t =
        Ok (num_mul100 s, PStr "B", status_of s t)).
Proof.
  assert (First : forall results entry rest s t pre subitem post n,
      has_entries results (PDict entry :: rest) ->
      nsfw_of entry = Some s ->
      entry !! "items" = Some (PList (pre ++ subitem :: post)) ->
      score_of subitem = Some n ->
      num_gt n (NInt 0) = true ->
      Forall (fun x => exists m, score_of x = Some m /\ num_gt n m = true) pre ->
      Forall (fun x => exists m, score_of x = Some m /\ num_gt m n = false) post ->
      process_moderation_results results t =
        Ok (num_mul100 s, label_of subitem, status_of s t)).
  { intros results entry rest s t pre subitem post n He Hs Hi Hn Hpos Hpre Hpost.
    rewrite (interpret_first_entry _ _ _ _ (pre ++ subitem :: post) t He Hs)
      by (unfold subitems_of; rewrite Hi; reflexivity).
    rewrite (scan_items_select pre subitem post _ _ n Hn Hpos Hpre Hpost).
    reflexivity. }
  split; [exact First|split].
  - intros results entry rest s t items He Hs Hi Hlow.
    rewrite (interpret_first_entry _ _ _ _ items t He Hs Hi).
    rewrite scan_items_keep by exact Hlow. reflexivity.
  - intros results entry rest s t He Hs Hi.
    apply (First results entry rest s t [subitem_of "A" (PFloat 0.3)]
             (subitem_of "B" (PFloat 0.9)) [subitem_of "C" (PFloat 0.9)]
             (NFloat 0.9) He Hs Hi).
    + reflexivity.
    + reflexivity.
    + repeat constructor. eexists. split; reflexivity.
    + repeat constructor. eexists. split; reflexivity.
Qed.

Lemma interpret_category_witness :
  process_moderation_results
    (payload_of [obj [("nsfw_likelihood_score", PFloat 0.1); ("items", PList tie_items)]])
    default_threshold
  = Ok (NFloat 10, PStr "B", "validated").
Proof.
  apply (proj2 (proj2 interpret_category) _
           (list_to_map [("nsfw_likelihood_score", PFloat 0.1);
                         ("items", PList tie_items)]) [] (NFloat 0.1)).
  - apply has_entries_payload_of.
  - reflexivity.
  - reflexivity.
Defined.

(** ** The client *)

Lemma is_str_eq k v : is_str k v = true <-> v = PStr k.
Proof.
  destruct v; simpl; try (split; [discriminate|intros [=]]).
  rewrite String.eqb_eq. split; [intros ->; reflexivity|intros [=]; assumption].
Qed.

Lemma is_str_neq k v : is_str k v = false <-> v <> PStr k.
Proof.
  rewrite <- is_str_eq. destruct (is_str k v); split; congruence.
Qed.

Section ClientFacts.
Context {W : Type} (E : env W).

Implicit Types (st : state W) (url : string) (fuel : nat).

(** C8: when the API answers the POST with a JSON object, submit fails with
    [SubmissionError] exactly when the object has no "id" field and returns
    the value of that field otherwise; either way one POST was made. *)
Theorem post_text_to_moderate_id text st (d : gmap string pyval) w' :
  requests_post E (API_URL_POST E) (obj [("text", text)]) (world st)
    = (Ok (PDict d), w') ->
  let st' :=
    Build_state w'
      (trace st ++ [EvPost (API_URL_POST E) (obj [("text", text)])]) (df st) in
  (d !! "id" = None <->
     post_text_to_moderate E text st = (Raise SubmissionError, st')) /\
  (forall v, d !! "id" = Some v <->
     post_text_to_moderate E text st = (Ret v, st')).
Proof.
  intros Hpost st'.
  assert (Hrun : post_text_to_moderate E text st =
                 match d !! "id" with
                 | Some v => (Ret v, st')
                 | None => (Raise SubmissionError, st')
                 end).
  { unfold post_text_to_moderate, bind, call. rewrite Hpost.
    cbn [lift ret py_contains]. unfold py_getitem.
    destruct (d !! "id") as [v|].
    - rewrite bool_decide_true by eauto. reflexivity.
    - rewrite bool_decide_false by (by intros [? ?]). reflexivity. }
  rewrite Hrun. split.
  - destruct (d !! "id"); split; congruence.
  - intros v. destruct (d !! "id"); split; congruence.
Qed.

Lemma poll_loop_step fuel url st r w1 status :
  requests_get E url (world st) = (Ok r, w1) ->
  reported_status r = Ok status ->
  poll_loop E (S fuel) url st =
    let st1 := Build_state w1 (trace st ++ [EvGet url]) (df st) in
    if is_str "succeeded" status then (Ret r, st1)
    else if is_str "failed" status then (Raise (ModerationFailedError r), st1)
    else if is_str "processing" status then
      poll_loop E fuel url
        (Build_state w1 (trace st ++ [EvGet url; EvSleep wait_interval]) (df st))
    else (Raise (UnexpectedStatusError status), st1).
Proof.
  intros Hget Hstatus. cbn [poll_loop]. unfold bind at 1, call.
  rewrite Hget. cbn [lift ret]. unfold bind at 1. rewrite Hstatus.
  cbn [lift ret].
  destruct (is_str "succeeded" status); [reflexivity|].
  destruct (is_str "failed" status); [reflexivity|].
  destruct (is_str "processing" status); [|reflexivity].
  unfold bind, emit. cbn [world trace df].
  rewrite <- app_assoc. reflexivity.
Qed.

(** Responses that report "processing" are consumed one per iteration, each
    followed by a sleep, and the loop goes on. *)
Lemma poll_loop_processing url st pre w1 fuel :
  serves E url (world st) pre w1 ->
  Forall (fun r => reported_status r = Ok (PStr "processing")) pre ->
  poll_loop E (length pre + fuel) url st =
    poll_loop E fuel url
      (Build_state w1 (trace st ++ waiting url (length pre)) (df st)).
Proof.
  intros Hserves. remember (world st) as w eqn:Hw. revert st Hw.
  induction Hserves as [w|w r w2 rs w' Hget _ IH]; intros st Hw Hall.
  - cbn. rewrite app_nil_r. destruct st; subst; reflexivity.
  - inversion Hall as [|? ? Hr Hrs]; subst.
    cbn [length Nat.add].
    rewrite (poll_loop_step _ _ _ _ _ _ Hget Hr). cbn zeta.
    change (is_str "succeeded" (PStr "processing")) with false.
    change (is_str "failed" (PStr "processing")) with false.
    change (is_str "processing" (PStr "processing")) with true.
    cbn iota. rewrite IH by (auto).
    cbn [world trace df]. unfold waiting. cbn [replicate concat].
    rewrite <- app_assoc. reflexivity.
Qed.

Lemma serves_app url w rs1 rs2 w' :
  serves E url w (rs1 ++ rs2) w' ->
  exists w1, serves E url w rs1 w1 /\ serves E url w1 rs2 w'.
Proof.
  revert w. induction rs1 as [|r rs1 IH]; intros w Hs.
  - exists w. split; [constructor|exact Hs].
  - inversion Hs as [|? ? w2 ? ? Hget Hrest]; subst.
    destruct (IH _ Hrest) as (w1 & H1 & H2).
    exists w1. split; [econstructor; eauto|exact H2].
Qed.

(** C2: on responses [pre ++ [last]] of which those in [pre] report
    "processing", poll loops through [pre] and then, seeing the status of
    [last], returns [last] exactly when that status is "succeeded", fails with
    [ModerationFailedError last] exactly when it is "failed", is still
    looping exactly when it is "processing", and fails with
    [UnexpectedStatusError] exactly when it is anything else.  More fuel
    changes nothing unless the loop is still running. *)
Theorem get_moderation_result_outcome execution_id url st pre last status w' :
  poll_url E execution_id = Ok url ->
  serves E url (world st) (pre ++ [last]) w' ->
  Forall (fun r => reported_status r = Ok (PStr "processing")) pre ->
  reported_status last = Ok status ->
  exists out st',
    get_moderation_result E (S (length pre)) execution_id st = (out, st') /\
    world st' = w' /\
    (out = Ret last <-> status = PStr "succeeded") /\
    (out = Raise (ModerationFailedError last) <-> status = PStr "failed") /\
    (out = Unfinished <-> status = PStr "processing") /\
    (out = Raise (UnexpectedStatusError status) <->
       status <> PStr "succeeded" /\ status <> PStr "failed" /\
       status <> PStr "processing") /\
    (forall fuel,
        get_moderation_result E (S (length pre) + fuel) execution_id st =
          match out with
          | Unfinished => poll_loop E fuel url st'
          | _ => (out, st')
          end).
Proof.
  intros Hurl Hserves Hpre Hlast.
  destruct (serves_app _ _ _ _ _ Hserves) as (w1 & Hs1 & Hs2).
  inversion Hs2 as [|? ? w2 ? ? Hget Hnil]; subst.
  inversion Hnil; subst.
  set (st1 := Build_state w1 (trace st ++ waiting url (length pre)) (df st)).
  assert (Hrun : forall fuel,
             get_moderation_result E (S (length pre) + fuel) execution_id st =
             poll_loop E (S fuel) url st1).
  { intros fuel. unfold get_moderation_result, bind. rewrite Hurl.
    cbn [lift ret].
    replace (S (length pre) + fuel)%nat with (length pre + S fuel)%nat by lia.
    apply poll_loop_processing; assumption. }
  assert (Hstep := fun fuel => poll_loop_step fuel url st1 last w' status Hget Hlast).
  cbn zeta in Hstep.
  pose proof (is_str_eq "succeeded" status) as Hs.
  pose proof (is_str_eq "failed" status) as Hf.
  pose proof (is_str_eq "processing" status) as Hp.
  pose proof (Hrun 0%nat) as Hrun0. rewrite Nat.add_0_r in Hrun0.
  rewrite Hrun0.
  destruct (is_str "succeeded" status) eqn:Es;
    [|destruct (is_str "failed" status) eqn:Ef;
      [|destruct (is_str "processing" status) eqn:Ep]].
  all: eexists _, _; (split; [rewrite Hstep; reflexivity|]).
  all: try (assert (status = PStr "succeeded") as -> by (by apply Hs)).
  all: try (assert (status = PStr "failed") as -> by (by apply Hf)).
  all: try (assert (status = PStr "processing") as -> by (by apply Hp)).
  all: repeat split; try congruence; try discriminate;
    try (intros (? & ? & ?); congruence);
    try (intros fuel; rewrite Hrun, Hstep; reflexivity).
  all: intros ->; discriminate.
Qed.

(** C9: on the responses [processing; processing; succeeded] poll returns the
    third one, and its effects are GET, sleep 5, GET, sleep 5, GET: two sleeps
    of 5 seconds, one after each "processing", none after "succeeded". *)
Theorem get_moderation_result_two_sleeps execution_id url st p1 p2 final w' fuel :
  poll_url E execution_id = Ok url ->
  serves E url (world st) [p1; p2; final] w' ->
  reported_status p1 = Ok (PStr "processing") ->
  reported_status p2 = Ok (PStr "processing") ->
  reported_status final = Ok (PStr "succeeded") ->
  (3 <= fuel)%nat ->
  get_moderation_result E fuel execution_id st =
    (Ret final,
     Build_state w'
       (trace st ++ [EvGet url; EvSleep 5; EvGet url; EvSleep 5; EvGet url])
       (df st)).
Proof.
  intros Hurl Hserves H1 H2 H3 Hfuel.
  destruct (serves_app _ _ [p1; p2] [final] _ Hserves) as (w1 & Hs1 & Hs2).
  inversion Hs2 as [|? ? w2 ? ? Hget Hnil]; subst.
  inversion Hnil; subst.
  unfold get_moderation_result, bind. rewrite Hurl. cbn [lift ret].
  replace fuel with (length [p1; p2] + S (fuel - 3))%nat by (cbn; lia).
  rewrite (poll_loop_processing url st [p1; p2] w1 _ Hs1) by (repeat constructor; assumption).
  rewrite (poll_loop_step _ url (Build_state w1 _ _) final w' _ Hget H3).
  cbn. rewrite <- app_assoc. reflexivity.
Qed.

End ClientFacts.

Lemma post_text_to_moderate_id_witness :
  post_text_to_moderate (script_env no_table) (PStr "some text") (start world_with_id)
    = (Ret (PStr "42"),
       Build_state {| posts := []; gets := [] |}
         [EvPost (Some "https://api.test/moderation") (obj [("text", PStr "some text")])]
         no_table) /\
  post_text_to_moderate (script_env no_table) (PStr "some text") (start world_without_id)
    = (Raise SubmissionError,
       Build_state {| posts := []; gets := [] |}
         [EvPost (Some "https://api.test/moderation") (obj [("text", PStr "some text")])]
         no_table).
Proof.
  split.
  - apply (proj2 (post_text_to_moderate_id (script_env no_table) (PStr "some text")
                    (start world_with_id) (list_to_map [("id", PStr "42")])
                    {| posts := []; gets := [] |} eq_refl)).
    reflexivity.
  - apply (proj1 (post_text_to_moderate_id (script_env no_table) (PStr "some text")
                    (start world_without_id)
                    (list_to_map [("detail", PStr "quota exceeded")])
                    {| posts := []; gets := [] |} eq_refl)).
    reflexivity.
Defined.

Lemma get_moderation_result_outcome_witness :
  exists st',
    get_moderation_result (script_env no_table) 2 (PStr "42") (start world_failing)
      = (Raise (ModerationFailedError (response_of "failed")), st').
Proof.
  destruct (get_moderation_result_outcome (script_env no_table) (PStr "42") url_42
              (start world_failing) [response_of "processing"] (response_of "failed")
              (PStr "failed") {| posts := []; gets := [] |})
    as (out & st' & Hrun & _ & _ & Hfailed & _).
  - reflexivity.
  - econstructor; [reflexivity|]. econstructor; [reflexivity|]. constructor.
  - repeat constructor.
  - reflexivity.
  - exists st'. rewrite <- (proj2 Hfailed eq_refl). exact Hrun.
Defined.

Lemma get_moderation_result_two_sleeps_witness :
  get_moderation_result (script_env no_table) 3 (PStr "42") (start world_slow)
    = (Ret (response_of "succeeded"),
       Build_state {| posts := []; gets := [] |}
         [EvGet url_42; EvSleep 5; EvGet url_42; EvSleep 5; EvGet url_42] no_table).
Proof.
  apply (get_moderation_result_two_sleeps (script_env no_table) (PStr "42") url_42
           (start world_slow) (response_of "processing") (response_of "processing")
           (response_of "succeeded") {| posts := []; gets := [] |} 3%nat).
  - reflexivity.
  - econstructor; [reflexivity|]. econstructor; [reflexivity|].
    econstructor; [reflexivity|]. constructor.
  - reflexivity.
  - reflexivity.
  - reflexivity.
  - lia.
Defined.

(** ** Fuel

    A run that is over is not changed by more fuel. *)

Section Fuel.
Context {W : Type} (E : env W).

Implicit Types (st : state W) (fuel : nat).

Lemma bind_more_fuel {A B} (m m' : M W A) (k k' : A -> M W B) st out st' :
  bind m k st = (out, st') ->
  out <> Unfinished ->
  (forall o s, m st = (o, s) -> o <> Unfinished -> m' st = (o, s)) ->
  (forall a s o s', k a s = (o, s') -> o <> Unfinished -> k' a s = (o, s')) ->
  bind m' k' st = (out, st').
Proof.
  unfold bind. intros Hrun Hout Hm Hk.
  destruct (m st) as [[a|e|] s1] eqn:Hfirst.
  - rewrite (Hm _ _ eq_refl) by discriminate. by apply Hk.
  - rewrite (Hm _ _ eq_refl) by discriminate. exact Hrun.
  - injection Hrun as <- <-. by destruct Hout.
Qed.

Lemma poll_loop_more_fuel fuel : forall fuel' url st out st',
  poll_loop E fuel url st = (out, st') ->
  out <> Unfinished ->
  (fuel <= fuel')%nat ->
  poll_loop E fuel' url st = (out, st').
Proof.
  induction fuel as [|fuel IH]; intros fuel' url st out st'.
  - cbn. intros [= <- <-] Hout. by destruct Hout.
  - intros Hrun Hout Hle.
    destruct fuel' as [|fuel']; [lia|].
    revert Hrun. cbn [poll_loop]. intros Hrun.
    eapply bind_more_fuel; [exact Hrun|exact Hout|auto|].
    clear Hrun Hout. intros result s o s' Hrun Hout. cbv beta in Hrun |- *.
    eapply bind_more_fuel; [exact Hrun|exact Hout|auto|].
    clear Hrun Hout. intros status s1 o1 s1' Hrun Hout. cbv beta in Hrun |- *.
    destruct (is_str "succeeded" status); [exact Hrun|].
    destruct (is_str "failed" status); [exact Hrun|].
    destruct (is_str "processing" status); [|exact Hrun].
    eapply bind_more_fuel; [exact Hrun|exact Hout|auto|].
    intros u s2 o2 s2' Hrun2 Hout2. cbv beta in Hrun2 |- *. apply IH; [exact Hrun2|exact Hout2|lia].
Qed.

Lemma get_moderation_result_more_fuel fuel fuel' execution_id st out st' :
  get_moderation_result E fuel execution_id st = (out, st') ->
  out <> Unfinished ->
  (fuel <= fuel')%nat ->
  get_moderation_result E fuel' execution_id st = (out, st').
Proof.
  unfold get_moderation_result. intros Hrun Hout Hle.
  eapply bind_more_fuel; [exact Hrun|exact Hout|auto|].
  intros url s o s' Hrun' Hout'. cbv beta in Hrun' |- *. by eapply poll_loop_more_fuel.
Qed.

Lemma moderate_row_more_fuel fuel fuel' index text st out st' :
  moderate_row E fuel index text st = (out, st') ->
  out <> Unfinished ->
  (fuel <= fuel')%nat ->
  moderate_row E fuel' index text st = (out, st').
Proof.
  unfold moderate_row. intros Hrun Hout Hle.
  eapply bind_more_fuel; [exact Hrun|exact Hout|auto|].
  clear Hrun Hout. intros id s o s' Hrun Hout. cbv beta in Hrun |- *.
  eapply bind_more_fuel; [exact Hrun|exact Hout| |auto].
  intros o1 s1 Hpoll Hout1. by eapply get_moderation_result_more_fuel.
Qed.

Lemma process_row_more_fuel fuel fuel' index text st out st' :
  process_row E fuel index text st = (out, st') ->
  out <> Unfinished ->
  (fuel <= fuel')%nat ->
  process_row E fuel' index text st = (out, st').
Proof.
  unfold process_row, try_except. intros Hrun Hout Hle.
  destruct (moderate_row E fuel index text st) as [[[]|e|] st1] eqn:Hrow.
  - by rewrite (moderate_row_more_fuel _ fuel' _ _ _ _ _ Hrow).
  - by rewrite (moderate_row_more_fuel _ fuel' _ _ _ _ _ Hrow).
  - injection Hrun as <- <-. by destruct Hout.
Qed.

Lemma process_rows_more_fuel fuel fuel' texts : forall index st out st',
  process_rows E fuel index texts st = (out, st') ->
  out <> Unfinished ->
  (fuel <= fuel')%nat ->
  process_rows E fuel' index texts st = (out, st').
Proof.
  induction texts as [|text rest IH]; intros index st out st'; [auto|].
  cbn [process_rows]. intros Hrun Hout Hle.
  eapply bind_more_fuel; [exact Hrun|exact Hout| |].
  - intros o s Hrow Ho. by eapply process_row_more_fuel.
  - intros u s o s' Hrest Ho. cbv beta in Hrest |- *. by apply IH.
Qed.

Lemma process_file_more_fuel fuel fuel' path st out st' :
  process_file E fuel path st = (out, st') ->
  out <> Unfinished ->
  (fuel <= fuel')%nat ->
  process_file E fuel' path st = (out, st').
Proof.
  unfold process_file. intros Hrun Hout Hle.
  eapply bind_more_fuel; [exact Hrun|exact Hout|auto|].
  clear Hrun Hout. intros table s o s' Hrun Hout. cbv beta in Hrun |- *.
  eapply bind_more_fuel; [exact Hrun|exact Hout|auto|].
  clear Hrun Hout. intros u s1 o1 s1' Hrun Hout. cbv beta in Hrun |- *.
  destruct (negb (bool_decide (text_column ∈ columns table))); [exact Hrun|].
  do 4 (eapply bind_more_fuel; [exact Hrun|exact Hout|auto|];
        clear Hrun Hout; intros ? ? ? ? Hrun Hout; cbv beta in Hrun |- *).
  eapply bind_more_fuel; [exact Hrun|exact Hout| |auto].
  intros orows srows Hrows Ho. by eapply process_rows_more_fuel.
Qed.

End Fuel.

(** ** The batch runner *)

Section BatchFacts.
Context {W : Type} (E : env W).

Implicit Types (st : state W) (fuel index : nat) (text : pyval).

(** C7: when the table read from the file lacks the text column,
    [process_file] fails with [MissingColumnError]; its only effect is the
    read, so no row was processed and no request was sent, and [df] is the
    table as read. *)
Theorem process_file_missing_column fuel path st table w' :
  read_excel E path (world st) = (Ok table, w') ->
  text_column ∉ columns table ->
  process_file E fuel path st =
    (Raise MissingColumnError,
     Build_state w' (trace st ++ [EvReadExcel path]) table).
Proof.
  intros Hread Hcol. unfold process_file, bind at 1, call.
  rewrite Hread. cbn [lift ret]. unfold bind at 1, modify_df.
  cbn [world trace df].
  rewrite bool_decide_false by exact Hcol. reflexivity.
Qed.

Lemma row_raises_moderate_row fuel index text st e st' :
  row_raises E fuel text st e st' ->
  moderate_row E fuel index text st = (Raise e, st').
Proof.
  intros [st1 Hpost|id st1 st2 Hpost Hpoll|id st1 results st2 Hpost Hpoll Hint];
    unfold moderate_row, bind at 1; rewrite Hpost; try reflexivity;
    unfold bind at 1; rewrite Hpoll; try reflexivity.
  unfold bind at 1. rewrite Hint. reflexivity.
Qed.

(** An exception in the [try] block ends the iteration in the [except]
    block and the loop goes on with the next row. *)
Lemma process_rows_caught fuel index text rest st e st' :
  moderate_row E fuel index text st = (Raise e, st') ->
  process_rows E fuel index (text :: rest) st =
    process_rows E fuel (S index) rest
      (Build_state (world st') (trace st' ++ [EvWrite index e])
         (set_at index status_column (PStr "Error") (df st'))).
Proof.
  intros Hraise. cbn [process_rows]. unfold bind at 1, process_row, try_except.
  rewrite Hraise. reflexivity.
Qed.

End BatchFacts.

(** C4: an exception raised by submit, poll or interpret for a row is caught
    in that iteration: the error line is written, the row's status is set to
    "Error" and the loop goes on with the next row.  In the batch of three
    rows whose second submit throws, the table written has three rows, the
    second with status "Error", the first and third with their computed
    values. *)
Theorem process_rows_isolates_failure :
  (forall (W : Type) (E : env W) fuel index text rest (st : state W) e st',
      row_raises E fuel text st e st' ->
      process_rows E fuel index (text :: rest) st =
        process_rows E fuel (S index) rest
          (Build_state (world st') (trace st' ++ [EvWrite index e])
             (set_at index status_column (PStr "Error") (df st')))) /\
  (forall fuel,
      (1 <= fuel)%nat ->
      process_file (script_env three_rows) fuel input_path (start world_row2_fails) =
        (Ret tt,
         Build_state {| posts := []; gets := [] |} trace_row2_fails three_outcomes)).
Proof.
  split.
  - intros W E fuel index text rest st e st' Hraises.
    apply process_rows_caught. by apply row_raises_moderate_row.
  - intros fuel Hfuel.
    apply (process_file_more_fuel _ 1 fuel); [|discriminate|exact Hfuel].
    vm_compute. reflexivity.
Qed.

Lemma process_rows_isolates_failure_witness :
  process_rows (script_env three_rows) 1 1 [PStr "second"]
    (start {| posts := [Err (ExternalError "connection reset")]; gets := [] |}) =
  (Ret tt,
   Build_state {| posts := []; gets := [] |}
     [EvPost post_url (obj [("text", PStr "second")]);
      EvWrite 1 (ExternalError "connection reset")] no_table).
Proof.
  rewrite (proj1 process_rows_isolates_failure script (script_env three_rows)
             1%nat 1%nat (PStr "second") []
             (start {| posts := [Err (ExternalError "connection reset")]; gets := [] |})
             (ExternalError "connection reset")
             (Build_state {| posts := []; gets := [] |}
                [EvPost post_url (obj [("text", PStr "second")])] no_table)).
  - reflexivity.
  - apply raises_submit. reflexivity.
Defined.

Lemma process_file_missing_column_witness :
  process_file (script_env wrong_header) 1 input_path (start world_row2_fails) =
    (Raise MissingColumnError,
     Build_state world_row2_fails [EvReadExcel input_path] wrong_header).
Proof.
  apply (process_file_missing_column (script_env wrong_header) 1 input_path
           (start world_row2_fails) wrong_header world_row2_fails).
  - reflexivity.
  - vm_compute. intros H. inversion H as [|? ? ? H']; subst. inversion H'.
Defined.

(** ** Effects of one row *)

Section Quiet.
Context {W : Type} (E : env W).

Lemma quiet_ret {A} (a : A) : quiet (@ret W A a).
Proof.
  intros st out st' [= <- <-]. split; [reflexivity|].
  exists []. split; [by rewrite app_nil_r|constructor].
Qed.

Lemma quiet_raise {A} e : quiet (@raise W A e).
Proof.
  intros st out st' [= <- <-]. split; [reflexivity|].
  exists []. split; [by rewrite app_nil_r|constructor].
Qed.

Lemma quiet_lift {A} (r : res A) : quiet (@lift W A r).
Proof. destruct r; [apply quiet_ret|apply quiet_raise]. Qed.

Lemma quiet_emit ev : is_write ev = false -> quiet (@emit W ev).
Proof.
  intros Hev st out st' [= <- <-]. split; [reflexivity|].
  exists [ev]. split; [reflexivity|by constructor].
Qed.

Lemma quiet_call {A} ev (f : W -> res A * W) :
  is_write ev = false -> quiet (call ev f).
Proof.
  intros Hev st out st'. unfold call.
  destruct (f (world st)) as [[a|e] w1]; intros [= <- <-];
    (split; [reflexivity|]); exists [ev]; (split; [reflexivity|by constructor]).
Qed.

Lemma quiet_bind {A B} (m : M W A) (k : A -> M W B) :
  quiet m -> (forall a, quiet (k a)) -> quiet (bind m k).
Proof.
  intros Hm Hk st out st'. unfold bind.
  destruct (m st) as [[a|e|] st1] eqn:Hrun.
  - intros Hrest. destruct (Hm _ _ _ Hrun) as (Hdf1 & new1 & Htr1 & Hq1).
    destruct (Hk a _ _ _ Hrest) as (Hdf2 & new2 & Htr2 & Hq2).
    split; [congruence|]. exists (new1 ++ new2)%list.
    split; [rewrite Htr2, Htr1; by rewrite app_assoc|by apply Forall_app_2].
  - intros [= <- <-]. destruct (Hm _ _ _ Hrun) as (Hdf1 & new1 & Htr1 & Hq1).
    split; [exact Hdf1|]. by exists new1.
  - intros [= <- <-]. destruct (Hm _ _ _ Hrun) as (Hdf1 & new1 & Htr1 & Hq1).
    split; [exact Hdf1|]. by exists new1.
Qed.

Lemma quiet_post_text_to_moderate text : quiet (post_text_to_moderate E text).
Proof.
  unfold post_text_to_moderate.
  apply quiet_bind; [by apply quiet_call|intros result].
  apply quiet_bind; [apply quiet_lift|intros []].
  - apply quiet_lift.
  - apply quiet_raise.
Qed.

Lemma quiet_poll_loop fuel url : quiet (poll_loop E fuel url).
Proof.
  induction fuel as [|fuel IH]; cbn [poll_loop].
  - intros st out st' [= <- <-]. split; [reflexivity|].
    exists []. split; [by rewrite app_nil_r|constructor].
  - apply quiet_bind; [by apply quiet_call|intros result].
    apply quiet_bind; [apply quiet_lift|intros status].
    destruct (is_str "succeeded" status); [apply quiet_ret|].
    destruct (is_str "failed" status); [apply quiet_raise|].
    destruct (is_str "processing" status); [|apply quiet_raise].
    apply quiet_bind; [by apply quiet_emit|intros _; exact IH].
Qed.

Lemma quiet_get_moderation_result fuel execution_id :
  quiet (get_moderation_result E fuel execution_id).
Proof.
  unfold get_moderation_result.
  apply quiet_bind; [apply quiet_lift|intros url; apply quiet_poll_loop].
Qed.

End Quiet.

Lemma interpret_status results t rate category status :
  process_moderation_results results t = Ok (rate, category, status) ->
  status ∈ row_statuses.
Proof.
  unfold process_moderation_results, res_bind, row_statuses. intros H.
  repeat (case_match; simplify_eq); set_solver.
Qed.

Lemma length_set_at i c v t : length (rows (set_at i c v t)) = length (rows t).
Proof. unfold set_at. cbn [rows]. apply length_alter. Qed.

Lemma lookup_set_at_eq i c v t :
  rows (set_at i c v t) !! i = (fun r => <[c := v]> r) <$> rows t !! i.
Proof. unfold set_at. cbn [rows]. apply list_lookup_alter_eq. Qed.

Lemma lookup_set_at_ne i j c v t :
  i <> j -> rows (set_at i c v t) !! j = rows t !! j.
Proof. intros Hne. unfold set_at. cbn [rows]. by apply list_lookup_alter_ne. Qed.

Section RowEffects.
Context {W : Type} (E : env W).

Implicit Types (st : state W) (fuel index : nat) (text : pyval).

(** The [try] block changes [df] only when it completes, and then by the
    three assignments to its own row. *)
Lemma moderate_row_effect fuel index text st out st' :
  moderate_row E fuel index text st = (out, st') ->
  (exists new,
      trace st' = (trace st ++ new)%list /\
      Forall (fun e => is_write e = false) new) /\
  match out with
  | Ret _ =>
      exists rate category status,
        status ∈ row_statuses /\
        df st' =
          set_at index status_column (PStr status)
            (set_at index category_column (PStr category)
               (set_at index rate_column (PFloat rate) (df st)))
  | _ => df st' = df st
  end.
Proof.
  unfold moderate_row, bind at 1.
  destruct (post_text_to_moderate E text st) as [[id|e|] st1] eqn:Hpost;
    destruct (quiet_post_text_to_moderate E text _ _ _ Hpost)
      as (Hdf1 & new1 & Htr1 & Hq1);
    [|intros [= <- <-]; split; [by exists new1|exact Hdf1]..].
  unfold bind at 1.
  destruct (get_moderation_result E fuel id st1) as [[results|e|] st2] eqn:Hpoll;
    destruct (quiet_get_moderation_result E fuel id _ _ _ Hpoll)
      as (Hdf2 & new2 & Htr2 & Hq2);
    assert (Htr : trace st2 = (trace st ++ (new1 ++ new2))%list)
      by (rewrite Htr2, Htr1; by rewrite app_assoc);
    assert (Hq : Forall (fun e => is_write e = false) (new1 ++ new2)%list)
      by (by apply Forall_app_2);
    [|intros [= <- <-]; split; [by eexists|congruence]..].
  unfold bind at 1.
  destruct (process_moderation_results results default_threshold)
    as [[[chance category] status]|e] eqn:Hint; cbn [lift ret raise];
    [|intros [= <- <-]; split; [by eexists|congruence]].
  unfold bind at 1.
  destruct (py_float chance) as [rate|e]; cbn [lift ret raise];
    [|intros [= <- <-]; split; [by eexists|congruence]].
  unfold bind, modify_df. cbn [world trace df]. intros [= <- <-].
  cbn [world trace df]. split; [by eexists|].
  exists rate, (py_str E category), status.
  split; [by eapply interpret_status|]. by rewrite Hdf2, Hdf1.
Qed.

(** One iteration never raises.  It ends with the three cells of its row
    computed, or with the error line written and the status of its row set
    to "Error", or it is still polling. *)
Lemma process_row_effect fuel index text st out st' :
  process_row E fuel index text st = (out, st') ->
  exists new,
    Forall (fun e => is_write e = false) new /\
    ((out = Ret tt /\
      trace st' = (trace st ++ new)%list /\
      exists rate category status,
        status ∈ row_statuses /\
        df st' =
          set_at index status_column (PStr status)
            (set_at index category_column (PStr category)
               (set_at index rate_column (PFloat rate) (df st)))) \/
     (out = Ret tt /\
      exists e,
        trace st' = (trace st ++ new ++ [EvWrite index e])%list /\
        df st' = set_at index status_column (PStr "Error") (df st)) \/
     (out = Unfinished /\
      trace st' = (trace st ++ new)%list /\
      df st' = df st)).
Proof.
  unfold process_row, try_except.
  destruct (moderate_row E fuel index text st) as [[[]|e|] st1] eqn:Hrow;
    destruct (moderate_row_effect _ _ _ _ _ _ Hrow) as ((new & Htr & Hq) & Hdf).
  - intros [= <- <-]. exists new. split; [exact Hq|]. left. auto.
  - unfold on_error, bind, emit, modify_df. cbn [world trace df].
    intros [= <- <-]. cbn [world trace df].
    exists new. split; [exact Hq|]. right; left. split; [reflexivity|].
    exists e. split; [rewrite Htr; by rewrite app_assoc|by rewrite Hdf].
  - intros [= <- <-]. exists new. split; [exact Hq|]. right; right. auto.
Qed.

End RowEffects.

Lemma not_write_elem new i e :
  Forall (fun ev => is_write ev = false) new -> EvWrite i e ∉ new.
Proof.
  intros Hq Hin. rewrite Forall_forall in Hq.
  specialize (Hq _ Hin). discriminate Hq.
Qed.

Section Rows.
Context {W : Type} (E : env W).

Implicit Types (st : state W) (fuel index : nat) (texts : list pyval).

(** The loop over the rows labelled [index], ..., [index + length texts - 1]:
    it never raises, keeps the number of rows, touches no other row, writes
    an error line only for a row of its range, whose cells it leaves as they
    were but for the status "Error", and when it completes every row of its
    range holds a status. *)
Lemma process_rows_effect fuel texts : forall index st out st',
  process_rows E fuel index texts st = (out, st') ->
  (forall e, out <> Raise e) /\
  length (rows (df st')) = length (rows (df st)) /\
  (forall i, (i < index \/ index + length texts <= i)%nat ->
             rows (df st') !! i = rows (df st) !! i) /\
  (exists new,
      trace st' = (trace st ++ new)%list /\
      forall i e,
        EvWrite i e ∈ new ->
        (index <= i < index + length texts)%nat /\
        rows (df st') !! i =
          (fun r => <[status_column := PStr "Error"]> r) <$> rows (df st) !! i) /\
  (out = Ret tt ->
   forall i r,
     (index <= i < index + length texts)%nat ->
     rows (df st') !! i = Some r ->
     exists s, r !! status_column = Some (PStr s) /\ s ∈ row_statuses).
Proof.
  induction texts as [|text rest IH]; intros index st out st'.
  - cbn. intros [= <- <-]. split; [discriminate|]. split; [reflexivity|].
    split; [reflexivity|]. split.
    + exists []. split; [by rewrite app_nil_r|]. intros i e Hin. inversion Hin.
    + intros _ i r Hi. lia.
  - cbn [process_rows length]. unfold bind at 1.
    destruct (process_row E fuel index text st) as [[[]|e0|] st1] eqn:Hrow;
      destruct (process_row_effect _ _ _ _ _ _ _ Hrow)
        as (new & Hq & [(Hout & Htr & rate & cat & s & Hs & Hdf)
                       |[(Hout & e & Htr & Hdf)|(Hout & Htr & Hdf)]]);
      try discriminate Hout.
    + (* the row was computed *)
      intros Hrest.
      destruct (IH _ _ _ _ Hrest) as (Hne & Hlen & Hframe & (new' & Htr' & Hw) & Hst).
      assert (Hrow1 : forall i, i <> index -> rows (df st1) !! i = rows (df st) !! i).
      { intros i Hi. rewrite Hdf. by rewrite !lookup_set_at_ne. }
      split; [exact Hne|]. split; [|split; [|split]].
      * rewrite Hlen, Hdf. by rewrite !length_set_at.
      * intros i Hi. rewrite Hframe by lia. apply Hrow1. lia.
      * exists (new ++ new')%list. split; [rewrite Htr', Htr; by rewrite app_assoc|].
        intros i e Hin. apply elem_of_app in Hin as [Hin|Hin].
        { by apply not_write_elem in Hin. }
        destruct (Hw _ _ Hin) as (Hi & Hrow2). split; [lia|].
        rewrite Hrow2. rewrite Hrow1 by lia. reflexivity.
      * intros Hret i r Hi Hr.
        destruct (decide (i = index)) as [->|Hne'].
        -- rewrite Hframe in Hr by lia. rewrite Hdf in Hr.
           rewrite lookup_set_at_eq in Hr.
           destruct (rows _ !! index) as [r0|] eqn:Hr0; [|discriminate].
           injection Hr as <-. exists s. split; [apply lookup_insert_eq|exact Hs].
        -- apply (Hst Hret i r); [lia|exact Hr].
    + (* the row failed *)
      intros Hrest.
      destruct (IH _ _ _ _ Hrest) as (Hne & Hlen & Hframe & (new' & Htr' & Hw) & Hst).
      assert (Hrow1 : forall i, i <> index -> rows (df st1) !! i = rows (df st) !! i).
      { intros i Hi. rewrite Hdf. by rewrite lookup_set_at_ne. }
      split; [exact Hne|]. split; [|split; [|split]].
      * rewrite Hlen, Hdf. by rewrite length_set_at.
      * intros i Hi. rewrite Hframe by lia. apply Hrow1. lia.
      * exists (new ++ [EvWrite index e] ++ new')%list.
        split; [rewrite Htr', Htr; by rewrite <- !app_assoc|].
        intros i e' Hin. apply elem_of_app in Hin as [Hin|Hin].
        { by apply not_write_elem in Hin. }
        apply elem_of_app in Hin as [Hin|Hin].
        { apply list_elem_of_singleton in Hin. injection Hin as -> ->.
          split; [lia|]. rewrite Hframe by lia. rewrite Hdf.
          apply lookup_set_at_eq. }
        destruct (Hw _ _ Hin) as (Hi & Hrow2). split; [lia|].
        rewrite Hrow2. rewrite Hrow1 by lia. reflexivity.
      * intros Hret i r Hi Hr.
        destruct (decide (i = index)) as [->|Hne'].
        -- rewrite Hframe in Hr by lia. rewrite Hdf in Hr.
           rewrite lookup_set_at_eq in Hr.
           destruct (rows _ !! index) as [r0|] eqn:Hr0; [|discriminate].
           injection Hr as <-. exists "Error".
           split; [apply lookup_insert_eq|unfold row_statuses; constructor].
        -- apply (Hst Hret i r); [lia|exact Hr].
    + (* still polling *)
      intros [= <- <-]. split; [discriminate|]. split; [by rewrite Hdf|].
      split; [intros i _; by rewrite Hdf|]. split.
      * exists new. split; [exact Htr|]. intros i e Hin.
        by apply not_write_elem in Hin.
      * discriminate.
Qed.

End Rows.

Lemma lookup_with_result_columns table i :
  rows (with_result_columns table) !! i =
    (fun r => <[status_column := PStr ""]>
                (<[category_column := PStr ""]> (<[rate_column := PFloat 0]> r)))
      <$> rows table !! i.
Proof.
  unfold with_result_columns, set_column. cbn [rows].
  rewrite !list_lookup_fmap. by destruct (rows table !! i).
Qed.

Lemma length_with_result_columns table :
  length (rows (with_result_columns table)) = length (rows table).
Proof.
  unfold with_result_columns, set_column. cbn [rows]. by rewrite !length_fmap.
Qed.

Section File.
Context {W : Type} (E : env W).

Implicit Types (st : state W) (fuel : nat) (path : string).

(** Past the column check, [process_file] is the loop over the rows of the
    table with its result columns, followed by the write. *)
Lemma process_file_run fuel path st table w' :
  read_excel E path (world st) = (Ok table, w') ->
  text_column ∈ columns table ->
  process_file E fuel path st =
    bind (process_rows E fuel 0 (cell text_column <$> rows (with_result_columns table)))
      (fun _ =>
         let! result := get_df in
         let! _ := call (EvToExcel output_path result)
                        (to_excel E output_path result) in
         emit (EvPrint "Results saved"))
      (Build_state w' (trace st ++ [EvReadExcel path]) (with_result_columns table)).
Proof.
  intros Hread Hcol. unfold process_file, bind at 1, call.
  rewrite Hread. cbn [lift ret]. unfold bind at 1, modify_df.
  cbn [world trace df]. rewrite bool_decide_true by exact Hcol. cbn [negb].
  reflexivity.
Qed.

Lemma quiet_save :
  quiet (let! result := @get_df W in
         let! _ := call (EvToExcel output_path result)
                        (to_excel E output_path result) in
         emit (EvPrint "Results saved")).
Proof.
  apply quiet_bind.
  - intros st out st' [= <- <-]. split; [reflexivity|].
    exists []. split; [by rewrite app_nil_r|constructor].
  - intros result. apply quiet_bind; [by apply quiet_call|].
    intros _. by apply quiet_emit.
Qed.

(** The loop over a list of texts in two parts. *)
Lemma process_rows_app fuel texts1 : forall texts2 index st,
  process_rows E fuel index (texts1 ++ texts2) st =
    bind (process_rows E fuel index texts1)
      (fun _ => process_rows E fuel (index + length texts1) texts2) st.
Proof.
  induction texts1 as [|text rest IH]; intros texts2 index st.
  - cbn. unfold bind, ret. by rewrite Nat.add_0_r.
  - cbn [app process_rows length]. unfold bind.
    destruct (process_row E fuel index text st) as [[[]|e|] st1]; try reflexivity.
    rewrite IH. unfold bind.
    replace (S index + length rest)%nat with (index + S (length rest))%nat by lia.
    reflexivity.
Qed.

(** The texts the loop iterates over are the text cells of the input. *)
Lemma texts_with_result_columns table :
  cell text_column <$> rows (with_result_columns table) =
  cell text_column <$> rows table.
Proof.
  apply list_eq. intros i. rewrite !list_lookup_fmap, lookup_with_result_columns.
  destruct (rows table !! i) as [r|]; [|reflexivity].
  cbn. unfold cell. by rewrite !lookup_insert_ne.
Qed.

(** Where a run past the column check ends: in the state the loop left,
    with the effects of the write, if any, added. *)
Lemma process_file_end fuel path st table w' out st' :
  read_excel E path (world st) = (Ok table, w') ->
  text_column ∈ columns table ->
  process_file E fuel path st = (out, st') ->
  exists o1 st1 extra,
    process_rows E fuel 0 (cell text_column <$> rows table)
      (Build_state w' (trace st ++ [EvReadExcel path]) (with_result_columns table))
      = (o1, st1) /\
    df st' = df st1 /\
    trace st' = (trace st1 ++ extra)%list /\
    (out = Ret tt -> o1 = Ret tt).
Proof.
  intros Hread Hcol. rewrite (process_file_run _ _ _ _ _ Hread Hcol).
  rewrite texts_with_result_columns. unfold bind at 1.
  destruct (process_rows E fuel 0 _ _) as [o1 st1] eqn:Hrows.
  destruct (process_rows_effect E fuel _ _ _ _ _ Hrows) as (Hnoraise & _).
  destruct o1 as [[]|e|].
  - intros Hsave.
    destruct (quiet_save _ _ _ Hsave) as (Hdf & extra & Htr & _).
    by exists (Ret tt), st1, extra.
  - by destruct (Hnoraise e).
  - intros [= <- <-]. exists Unfinished, st1, [].
    split; [reflexivity|]. split; [reflexivity|].
    split; [by rewrite app_nil_r|discriminate].
Qed.

(** C3, amended: whatever the outcome of the run, the table has exactly the
    rows of the input, and when the run completes every row holds a status.
    A failed row, that is a row whose [try] block raises when the loop
    reaches it, does not stop the run: the error line is written, the loop
    goes on with the next row, and in the table left by the run that row has
    status "Error", rate 0.0 and the empty string as category. *)
Theorem process_file_row_outcomes fuel path st table w' :
  read_excel E path (world st) = (Ok table, w') ->
  text_column ∈ columns table ->
  let st0 :=
    Build_state w' (trace st ++ [EvReadExcel path]) (with_result_columns table) in
  let texts := cell text_column <$> rows table in
  (forall out st',
      process_file E fuel path st = (out, st') ->
      length (rows (df st')) = length (rows table) /\
      (out = Ret tt ->
       forall i r,
         rows (df st') !! i = Some r ->
         exists s, r !! status_column = Some (PStr s) /\ s ∈ row_statuses)) /\
  (forall i text st_i e st_e,
      texts !! i = Some text ->
      process_rows E fuel 0 (take i texts) st0 = (Ret tt, st_i) ->
      moderate_row E fuel i text st_i = (Raise e, st_e) ->
      process_rows E fuel 0 texts st0 =
        process_rows E fuel (S i) (drop (S i) texts)
          (Build_state (world st_e) (trace st_e ++ [EvWrite i e])
             (set_at i status_column (PStr "Error") (df st_e))) /\
      forall out st',
        process_file E fuel path st = (out, st') ->
        EvWrite i e ∈ trace st' /\
        exists r,
          rows (df st') !! i = Some r /\
          r !! status_column = Some (PStr "Error") /\
          r !! rate_column = Some (PFloat 0) /\
          r !! category_column = Some (PStr "")).
Proof.
  intros Hread Hcol st0 texts. split.
  - intros out st' Hrun.
    destruct (process_file_end _ _ _ _ _ _ _ Hread Hcol Hrun)
      as (o1 & st1 & extra & Hrows & Hdf & _ & Hret).
    destruct (process_rows_effect E fuel _ _ _ _ _ Hrows)
      as (_ & Hlen & _ & _ & Hst).
    cbn [df] in Hlen. rewrite length_with_result_columns in Hlen.
    rewrite Hdf. split; [exact Hlen|].
    intros Hout i r Hr. apply (Hst (Hret Hout) i r); [|exact Hr].
    apply lookup_lt_Some in Hr. rewrite length_fmap. lia.
  - intros i text st_i e st_e Htext Hpre Hraise.
    assert (Hi : (i < length texts)%nat) by (by eapply lookup_lt_Some).
    assert (Hcont :
              process_rows E fuel 0 texts st0 =
              process_rows E fuel (S i) (drop (S i) texts)
                (Build_state (world st_e) (trace st_e ++ [EvWrite i e])
                   (set_at i status_column (PStr "Error") (df st_e)))).
    { rewrite <- (take_drop_middle _ _ _ Htext) at 1.
      rewrite process_rows_app. unfold bind at 1. rewrite Hpre.
      rewrite length_take. replace (0 + i `min` length texts)%nat with i by lia.
      by apply process_rows_caught. }
    split; [exact Hcont|]. intros out st' Hrun.
    destruct (process_file_end _ _ _ _ _ _ _ Hread Hcol Hrun)
      as (o1 & st1 & extra & Hrows & Hdf & Htr & _).
    fold texts st0 in Hrows. rewrite Hcont in Hrows.
    destruct (process_rows_effect E fuel _ _ _ _ _ Hrows)
      as (_ & _ & Hframe & (new & Htr1 & _) & _).
    cbn [trace df] in Htr1, Hframe. split.
    + rewrite Htr, Htr1, !elem_of_app, list_elem_of_singleton. auto.
    + rewrite Hdf, Hframe by lia. rewrite lookup_set_at_eq.
      destruct (moderate_row_effect E _ _ _ _ _ _ Hraise) as (_ & ->).
      destruct (process_rows_effect E fuel _ _ _ _ _ Hpre)
        as (_ & _ & Hbefore & _).
      rewrite Hbefore by (rewrite length_take; lia).
      cbn [df st0]. rewrite lookup_with_result_columns.
      unfold texts in Htext. rewrite list_lookup_fmap in Htext.
      destruct (rows table !! i) as [r0|]; [|discriminate].
      eexists. split; [reflexivity|].
      split; [apply lookup_insert_eq|]. split.
      * rewrite lookup_insert_ne by discriminate.
        rewrite lookup_insert_ne by discriminate.
        rewrite lookup_insert_ne by discriminate.
        apply lookup_insert_eq.
      * rewrite lookup_insert_ne by discriminate.
        rewrite lookup_insert_ne by discriminate.
        apply lookup_insert_eq.
Qed.

End File.

(** C3, counterexample: in the batch of one row whose submit fails, the error
    line is written for row 0 and the row ends with the empty string as its
    category, not "Unknown". *)
Lemma failed_row_is_unknown_fails : ~ failed_row_is_unknown.
Proof.
  intros Claim.
  pose (run := process_file (script_env one_row) 1 input_path (start world_down)).
  destruct (Claim script (script_env one_row) 1%nat input_path (start world_down)
              one_row world_down (fst run) (snd run) eq_refl)
    with (i := 0%nat) (e := ExternalError "connection reset")
    as (r & Hr & _ & _ & Hcat).
  - constructor.
  - apply surjective_pairing.
  - vm_compute. repeat constructor.
  - apply not_elem_of_nil.
  - vm_compute in Hr. injection Hr as <-.
    vm_compute in Hcat. discriminate Hcat.
Qed.

Lemma process_file_row_outcomes_witness :
  let run := process_file (script_env three_rows) 1 input_path
               (start world_row2_fails) in
  EvWrite 1 (ExternalError "connection reset") ∈ trace (snd run) /\
  exists r,
    rows (df (snd run)) !! 1%nat = Some r /\
    r !! status_column = Some (PStr "Error") /\
    r !! rate_column = Some (PFloat 0) /\
    r !! category_column = Some (PStr "").
Proof.
  intros run.
  pose (st0 := Build_state world_row2_fails [EvReadExcel input_path]
                 (with_result_columns three_rows)).
  pose (st_i := snd (process_rows (script_env three_rows) 1 0 [PStr "first"] st0)).
  pose (st_e := snd (moderate_row (script_env three_rows) 1 1 (PStr "second") st_i)).
  destruct (process_file_row_outcomes (script_env three_rows) 1 input_path
              (start world_row2_fails) three_rows world_row2_fails eq_refl)
    as [_ Hfailed].
  - constructor.
  - destruct (Hfailed 1%nat (PStr "second") st_i
                (ExternalError "connection reset") st_e) as [_ Hfinal].
    + reflexivity.
    + vm_compute. reflexivity.
    + vm_compute. reflexivity.
    + apply (Hfinal (fst run) (snd run)). apply surjective_pairing.
Defined.

(** * Further properties *)

(** ** The interpreter on its edge cases *)

Lemma interpret_entries results entries t :
  has_entries results entries ->
  process_moderation_results results t =
    match entries with
    | [] => Ok (NInt 0, PStr "Unknown", "succeeded")
    | result :: _ =>
        let? nsfw_likelihood_score := py_get result "nsfw_likelihood_score" (PInt 0) in
        match as_num nsfw_likelihood_score with
        | None => Err TypeError
        | Some s =>
            let? items := py_get result "items" (PList []) in
            let? subitems := py_iter items in
            let? highest_category := scan_items subitems (PStr "Unknown") (NInt 0) in
            Ok (num_mul100 s, highest_category,
                if num_ge s t then "rejected" else "validated")
        end
    end.
Proof.
  intros (m & sec & Hm & Hsec & Hres).
  unfold process_moderation_results.
  rewrite Hm; cbn [res_bind].
  rewrite py_contains_dict, bool_decide_true by eauto; cbn [res_bind negb].
  unfold py_getitem; rewrite Hsec; cbn [res_bind].
  rewrite py_get_dict, Hres. reflexivity.
Qed.

(** X1: only the first entry of the results list counts; two payloads with
    the same first entry are interpreted alike, whatever follows it. *)
Theorem interpret_ignores_later_entries results1 results2 first rest1 rest2 t :
  has_entries results1 (first :: rest1) ->
  has_entries results2 (first :: rest2) ->
  process_moderation_results results1 t = process_moderation_results results2 t.
Proof.
  intros H1 H2.
  rewrite (interpret_entries _ _ t H1), (interpret_entries _ _ t H2).
  reflexivity.
Qed.

Lemma interpret_ignores_later_entries_witness :
  process_moderation_results
    (payload_of [PDict entry_half; PDict entry_tenth]) default_threshold =
  process_moderation_results (payload_of [PDict entry_half]) default_threshold.
Proof.
  apply (interpret_ignores_later_entries _ _ (PDict entry_half) [PDict entry_tenth] []).
  - apply has_entries_payload_of.
  - apply has_entries_payload_of.
Defined.

(** X2: whenever the interpreter returns, its status is one of "success",
    "succeeded", "rejected" and "validated" (never "Error"), and the two
    statuses without a verdict come with rate 0 and category "Unknown". *)
Theorem interpret_status_vocabulary results t rate category status :
  process_moderation_results results t = Ok (rate, category, status) ->
  (status = "rejected" \/ status = "validated" \/
   ((status = "success" \/ status = "succeeded") /\
    rate = NInt 0 /\ category = PStr "Unknown")) /\
  status <> "Error".
Proof.
  unfold process_moderation_results, res_bind. intros H.
  repeat (case_match; simplify_eq); (split; [tauto|discriminate]).
Qed.

Lemma interpret_status_vocabulary_witness :
  ("rejected" = "rejected" \/ "rejected" = "validated" \/
   (("rejected" = "success" \/ "rejected" = "succeeded") /\
    NFloat 50 = NInt 0 /\ PStr "Unknown" = PStr "Unknown")) /\
  "rejected" <> "Error".
Proof.
  apply (interpret_status_vocabulary (payload_of [PDict entry_half])
           default_threshold (NFloat 50) (PStr "Unknown") "rejected").
  vm_compute. reflexivity.
Defined.

(** X3: an ill-shaped first entry makes the interpreter raise:
    [AttributeError] when the entry is not an object, [TypeError] when its
    score is not a number. *)
Theorem interpret_ill_shaped_entry results first rest t :
  has_entries results (first :: rest) ->
  ((forall d, first <> PDict d) ->
   process_moderation_results results t = Err AttributeError) /\
  (forall entry v,
      first = PDict entry ->
      entry !! "nsfw_likelihood_score" = Some v ->
      as_num v = None ->
      process_moderation_results results t = Err TypeError).
Proof.
  intros He. rewrite (interpret_entries _ _ t He). split.
  - intros Hnot. destruct first; try reflexivity. by destruct (Hnot d).
  - intros entry v -> Hv Hnum. rewrite py_get_dict, Hv. cbn [res_bind default from_option id].
    rewrite Hnum. reflexivity.
Qed.

Lemma interpret_ill_shaped_entry_witness :
  process_moderation_results (payload_of [PStr "n/a"]) default_threshold
    = Err AttributeError /\
  process_moderation_results
    (payload_of [obj [("nsfw_likelihood_score", PStr "high")]]) default_threshold
    = Err TypeError.
Proof.
  split.
  - apply (proj1 (interpret_ill_shaped_entry _ (PStr "n/a") [] default_threshold
                    (has_entries_payload_of _))).
    discriminate.
  - apply (proj2 (interpret_ill_shaped_entry _ _ [] default_threshold
                    (has_entries_payload_of _))
             (list_to_map [("nsfw_likelihood_score", PStr "high")]) (PStr "high")).
    + reflexivity.
    + reflexivity.
    + reflexivity.
Defined.

Lemma scan_items_origin items : forall c h c',
  scan_items items c h = Ok c' ->
  c' = c \/ exists subitem, subitem ∈ items /\ c' = label_of subitem.
Proof.
  induction items as [|x l IH]; intros c h c'.
  - cbn. intros [= <-]. by left.
  - destruct (score_of x) as [n|] eqn:Hn.
    + rewrite (scan_items_step _ _ _ _ _ Hn).
      destruct (num_gt n h); intros Hscan; apply IH in Hscan as [->|(y & Hy & ->)].
      * right. exists x. split; [left|reflexivity].
      * right. exists y. split; [by right|reflexivity].
      * by left.
      * right. exists y. split; [by right|reflexivity].
    + destruct x; cbn; try discriminate.
      cbn in Hn. rewrite Hn. discriminate.
Qed.

(** X4: the category returned for a first entry is "Unknown" or the label of
    one of its sub-items; the interpreter never invents a category. *)
Theorem interpret_category_origin results entry rest items t rate category status :
  has_entries results (PDict entry :: rest) ->
  subitems_of entry = Some items ->
  process_moderation_results results t = Ok (rate, category, status) ->
  category = PStr "Unknown" \/
  exists subitem, subitem ∈ items /\ category = label_of subitem.
Proof.
  intros He Hi. rewrite (interpret_entries _ _ t He).
  rewrite !py_get_dict. cbn [res_bind].
  destruct (as_num _); [|discriminate].
  unfold subitems_of in Hi.
  destruct (entry !! "items") as [[]|]; simplify_eq; cbn [default from_option id py_iter res_bind].
  - destruct (scan_items items _ _) as [c|] eqn:Hscan; [|discriminate].
    cbn. intros [= <- <- <-]. by apply scan_items_origin in Hscan.
  - cbn. intros [= <- <- <-]. by left.
Qed.

Lemma interpret_category_origin_witness :
  PStr "B" = PStr "Unknown" \/
  exists subitem, subitem ∈ tie_items /\ PStr "B" = label_of subitem.
Proof.
  apply (interpret_category_origin
           (payload_of [obj [("nsfw_likelihood_score", PFloat 0.1);
                             ("items", PList tie_items)]])
           (list_to_map [("nsfw_likelihood_score", PFloat 0.1);
                         ("items", PList tie_items)]) [] tie_items
           default_threshold (NFloat 10) (PStr "B") "validated").
  - apply has_entries_payload_of.
  - reflexivity.
  - vm_compute. reflexivity.
Defined.

(** X5: a first entry without a score is read as score 0: under the default
    threshold 0.2 it is "validated" with the integer rate 0. *)
Theorem interpret_missing_score results entry rest items :
  has_entries results (PDict entry :: rest) ->
  entry !! "nsfw_likelihood_score" = None ->
  subitems_of entry = Some items ->
  Forall (fun x => is_Some (score_of x)) items ->
  exists category,
    process_moderation_results results default_threshold =
      Ok (NInt 0, category, "validated").
Proof.
  intros He Hnone Hi Hty.
  destruct (scan_items_total items (PStr "Unknown") (NInt 0) Hty) as [c Hc].
  exists c.
  rewrite (interpret_first_entry _ _ _ (NInt 0) items default_threshold He); auto.
  - rewrite Hc. reflexivity.
  - unfold nsfw_of. rewrite Hnone. reflexivity.
Qed.

Lemma interpret_missing_score_witness :
  exists category,
    process_moderation_results (payload_of [PDict entry_single_zero]) default_threshold =
      Ok (NInt 0, category, "validated").
Proof.
  apply (interpret_missing_score _ entry_single_zero [] [subitem_of "A" (PFloat 0)]).
  - apply has_entries_payload_of.
  - reflexivity.
  - reflexivity.
  - repeat constructor. eexists. reflexivity.
Defined.

(** ** The client on its edge cases *)

Section ClientEdges.
Context {W : Type} (E : env W).

Implicit Types (st : state W) (url : string) (fuel : nat).

(** X6: when the POST itself fails, submit propagates that exception after
    the one request; it does not try again. *)
Theorem post_text_to_moderate_transport_error text st e w' :
  requests_post E (API_URL_POST E) (obj [("text", text)]) (world st) = (Err e, w') ->
  post_text_to_moderate E text st =
    (Raise e,
     Build_state w'
       (trace st ++ [EvPost (API_URL_POST E) (obj [("text", text)])]) (df st)).
Proof.
  intros Hpost. unfold post_text_to_moderate, bind, call. rewrite Hpost.
  reflexivity.
Qed.

(** X7: a response that is not a JSON object: [None], a boolean or a number
    raises [TypeError]; a list raises [SubmissionError] unless the string
    "id" is one of its elements, in which case indexing it raises
    [TypeError]. *)
Theorem post_text_to_moderate_not_an_object text st r w' :
  requests_post E (API_URL_POST E) (obj [("text", text)]) (world st) = (Ok r, w') ->
  let st' :=
    Build_state w'
      (trace st ++ [EvPost (API_URL_POST E) (obj [("text", text)])]) (df st) in
  (r = PNone \/ (exists b, r = PBool b) \/ (exists z, r = PInt z) \/
   (exists f, r = PFloat f) ->
   post_text_to_moderate E text st = (Raise TypeError, st')) /\
  (forall l,
      r = PList l ->
      post_text_to_moderate E text st =
        (Raise (if existsb (is_str "id") l then TypeError else SubmissionError), st')).
Proof.
  intros Hpost st'. unfold post_text_to_moderate, bind, call. rewrite Hpost.
  split.
  - intros [->|[[b ->]|[[z ->]|[f ->]]]]; reflexivity.
  - intros l ->. cbn [lift ret py_contains].
    destruct (existsb (is_str "id") l); reflexivity.
Qed.

(** X8: without a poll URL template poll raises [AttributeError], and with an
    identifier that is not a string it raises [TypeError]; in both cases no
    request is made. *)
Theorem get_moderation_result_no_url fuel execution_id st :
  (API_URL_GET E = None ->
   get_moderation_result E fuel execution_id st = (Raise AttributeError, st)) /\
  (forall template,
      API_URL_GET E = Some template ->
      (forall s, execution_id <> PStr s) ->
      get_moderation_result E fuel execution_id st = (Raise TypeError, st)).
Proof.
  unfold get_moderation_result, bind, poll_url. split.
  - intros ->. reflexivity.
  - intros template -> Hid. destruct execution_id; try reflexivity.
    by destruct (Hid s).
Qed.

(** X9: while the API keeps answering "processing" the loop never ends:
    whatever the fuel, it is still running after that many polls, each
    followed by a sleep. *)
Theorem poll_loop_stuck (P : W -> Prop) url :
  (forall w, P w ->
     exists r w', requests_get E url w = (Ok r, w') /\
                  reported_status r = Ok (PStr "processing") /\ P w') ->
  forall fuel st,
    P (world st) ->
    exists st',
      poll_loop E fuel url st = (Unfinished, st') /\
      trace st' = (trace st ++ waiting url fuel)%list /\
      P (world st').
Proof.
  intros Hbusy fuel. induction fuel as [|fuel IH]; intros st HP.
  - exists st. split; [reflexivity|]. split; [by rewrite app_nil_r|exact HP].
  - destruct (Hbusy _ HP) as (r & w1 & Hget & Hstatus & HP1).
    rewrite (poll_loop_step E _ _ _ _ _ _ Hget Hstatus). cbn zeta.
    change (is_str "succeeded" (PStr "processing")) with false.
    change (is_str "failed" (PStr "processing")) with false.
    change (is_str "processing" (PStr "processing")) with true. cbn iota.
    destruct (IH (Build_state w1 (trace st ++ [EvGet url; EvSleep wait_interval])
                    (df st)) HP1) as (st' & Hrun & Htr & HP').
    exists st'. split; [exact Hrun|]. split; [|exact HP'].
    rewrite Htr. cbn [trace]. unfold waiting. cbn [replicate concat].
    by rewrite <- app_assoc.
Qed.

(** X10: the effects of the loop are polls of the one URL, each followed by
    a sleep of 5 seconds, and, once it is over, a last poll without a sleep:
    one request per iteration and never two sleeps in a row. *)
Theorem poll_loop_effects fuel : forall url st out st',
  poll_loop E fuel url st = (out, st') ->
  exists n,
    (n <= fuel)%nat /\
    trace st' =
      (trace st ++ waiting url n ++
         match out with Unfinished => [] | _ => [EvGet url] end)%list /\
    (out = Unfinished <-> n = fuel).
Proof.
  induction fuel as [|fuel IH]; intros url st out st'.
  - cbn. intros [= <- <-]. exists 0%nat. split; [lia|].
    split; [by rewrite app_nil_r|done].
  - cbn [poll_loop]. unfold bind at 1, call.
    destruct (requests_get E url (world st)) as [[r|e] w1]; cbn [lift ret raise].
    2:{ intros [= <- <-]. exists 0%nat. split; [lia|]. split; [reflexivity|].
        split; [discriminate|lia]. }
    unfold bind at 1.
    destruct (reported_status r) as [status|e]; cbn [lift ret raise].
    2:{ intros [= <- <-]. exists 0%nat. split; [lia|]. split; [reflexivity|].
        split; [discriminate|lia]. }
    destruct (is_str "succeeded" status).
    { intros [= <- <-]. exists 0%nat. split; [lia|]. split; [reflexivity|].
      split; [discriminate|lia]. }
    destruct (is_str "failed" status).
    { intros [= <- <-]. exists 0%nat. split; [lia|]. split; [reflexivity|].
      split; [discriminate|lia]. }
    destruct (is_str "processing" status).
    2:{ intros [= <- <-]. exists 0%nat. split; [lia|]. split; [reflexivity|].
        split; [discriminate|lia]. }
    unfold bind, emit. cbn [world trace df]. intros Hrun.
    destruct (IH _ _ _ _ Hrun) as (n & Hn & Htr & Hout).
    exists (S n). split; [lia|]. split.
    + rewrite Htr. cbn [trace]. unfold waiting. cbn [replicate concat].
      by rewrite <- !app_assoc.
    + rewrite Hout. lia.
Qed.

(** X11: an answer without a "content" object, or whose content has no
    "status", reads as the empty status and ends the poll with
    [UnexpectedStatusError] carrying the empty string. *)
Theorem poll_loop_missing_status fuel url st (d : gmap string pyval) w' :
  requests_get E url (world st) = (Ok (PDict d), w') ->
  d !! "content" = None \/
  (exists c : gmap string pyval,
      d !! "content" = Some (PDict c) /\ c !! "status" = None) ->
  poll_loop E (S fuel) url st =
    (Raise (UnexpectedStatusError (PStr "")),
     Build_state w' (trace st ++ [EvGet url]) (df st)).
Proof.
  intros Hget Hmissing.
  assert (Hstatus : reported_status (PDict d) = Ok (PStr "")).
  { unfold reported_status. rewrite py_get_dict.
    destruct Hmissing as [->|(c & -> & Hc)]; cbn [res_bind default from_option id].
    - rewrite py_get_dict, lookup_empty. reflexivity.
    - rewrite py_get_dict, Hc. reflexivity. }
  rewrite (poll_loop_step E _ _ _ _ _ _ Hget Hstatus). reflexivity.
Qed.

(** X12: a poll that fails at the transport, or whose answer is not a JSON
    object, ends the loop with that exception ([AttributeError] for the
    latter) also after earlier "processing" answers: there is no retry. *)
Theorem poll_loop_bad_answer url st pre w1 fuel :
  serves E url (world st) pre w1 ->
  Forall (fun r => reported_status r = Ok (PStr "processing")) pre ->
  let st1 := Build_state w1 (trace st ++ waiting url (length pre) ++ [EvGet url]) (df st) in
  (forall e w',
      requests_get E url w1 = (Err e, w') ->
      poll_loop E (length pre + S fuel) url st =
        (Raise e, Build_state w' (trace st1) (df st))) /\
  (forall r w',
      requests_get E url w1 = (Ok r, w') ->
      (forall d, r <> PDict d) ->
      poll_loop E (length pre + S fuel) url st =
        (Raise AttributeError, Build_state w' (trace st1) (df st))).
Proof.
  intros Hserves Hpre st1.
  rewrite (poll_loop_processing E url st pre w1 _ Hserves Hpre).
  cbn [poll_loop]. split.
  - intros e w' Hget. unfold bind at 1, call. cbn [world trace df].
    rewrite Hget. cbn [lift raise trace st1]. by rewrite <- app_assoc.
  - intros r w' Hget Hr. unfold bind at 1, call. cbn [world trace df].
    rewrite Hget. cbn [lift ret]. unfold bind.
    destruct r; try (cbn; by rewrite <- app_assoc).
    by destruct (Hr d).
Qed.

End ClientEdges.

Lemma post_text_to_moderate_transport_error_witness :
  post_text_to_moderate (script_env no_table) (PStr "first") (start world_down) =
    (Raise (ExternalError "connection reset"),
     Build_state {| posts := []; gets := [] |}
       [EvPost post_url (obj [("text", PStr "first")])] no_table).
Proof.
  apply (post_text_to_moderate_transport_error (script_env no_table) (PStr "first")
           (start world_down) (ExternalError "connection reset")
           {| posts := []; gets := [] |}).
  reflexivity.
Defined.

Lemma post_text_to_moderate_not_an_object_witness :
  post_text_to_moderate (script_env no_table) (PStr "first")
    (start {| posts := [Ok PNone]; gets := [] |}) =
    (Raise TypeError,
     Build_state {| posts := []; gets := [] |}
       [EvPost post_url (obj [("text", PStr "first")])] no_table) /\
  post_text_to_moderate (script_env no_table) (PStr "first")
    (start {| posts := [Ok (PList [PStr "id"])]; gets := [] |}) =
    (Raise TypeError,
     Build_state {| posts := []; gets := [] |}
       [EvPost post_url (obj [("text", PStr "first")])] no_table).
Proof.
  split.
  - apply (proj1 (post_text_to_moderate_not_an_object (script_env no_table)
                    (PStr "first") (start {| posts := [Ok PNone]; gets := [] |})
                    PNone {| posts := []; gets := [] |} eq_refl)).
    by left.
  - apply (proj2 (post_text_to_moderate_not_an_object (script_env no_table)
                    (PStr "first")
                    (start {| posts := [Ok (PList [PStr "id"])]; gets := [] |})
                    (PList [PStr "id"]) {| posts := []; gets := [] |} eq_refl)
             [PStr "id"]).
    reflexivity.
Defined.

Lemma get_moderation_result_no_url_witness :
  get_moderation_result env_without_get_url 3 (PStr "42") (start world_slow) =
    (Raise AttributeError, start world_slow) /\
  get_moderation_result (script_env no_table) 3 (PInt 42) (start world_slow) =
    (Raise TypeError, start world_slow).
Proof.
  split.
  - apply (proj1 (get_moderation_result_no_url env_without_get_url 3 (PStr "42")
                    (start world_slow))).
    reflexivity.
  - apply (proj2 (get_moderation_result_no_url (script_env no_table) 3 (PInt 42)
                    (start world_slow))
             "https://api.test/moderation/{execution_id}").
    + reflexivity.
    + discriminate.
Defined.

Lemma poll_loop_stuck_witness :
  exists st',
    poll_loop busy_env 7 url_42 (start tt) = (Unfinished, st') /\
    trace st' = ([] ++ waiting url_42 7)%list /\
    True.
Proof.
  apply (poll_loop_stuck busy_env (fun _ => True) url_42).
  - intros w _. exists (response_of "processing"), w.
    split; [reflexivity|]. split; [reflexivity|exact I].
  - exact I.
Defined.

Lemma poll_loop_effects_witness :
  let run := poll_loop (script_env no_table) 5 url_42 (start world_slow) in
  exists n,
    (n <= 5)%nat /\
    trace (snd run) =
      ([] ++ waiting url_42 n ++
         match fst run with Unfinished => [] | _ => [EvGet url_42] end)%list /\
    (fst run = Unfinished <-> n = 5%nat).
Proof.
  intros run.
  apply (poll_loop_effects (script_env no_table) 5 url_42 (start world_slow)).
  apply surjective_pairing.
Defined.

Lemma poll_loop_missing_status_witness :
  poll_loop (script_env no_table) 1 url_42
    (start {| posts := []; gets := [Ok (obj [])] |}) =
    (Raise (UnexpectedStatusError (PStr "")),
     Build_state {| posts := []; gets := [] |} [EvGet url_42] no_table).
Proof.
  apply (poll_loop_missing_status (script_env no_table) 0 url_42
           (start {| posts := []; gets := [Ok (obj [])] |}) ∅
           {| posts := []; gets := [] |}).
  - reflexivity.
  - left. reflexivity.
Defined.

Lemma poll_loop_bad_answer_witness :
  poll_loop (script_env no_table) 2 url_42
    (start {| posts := [];
              gets := [Ok (response_of "processing");
                       Err (ExternalError "connection reset")] |}) =
    (Raise (ExternalError "connection reset"),
     Build_state {| posts := []; gets := [] |}
       [EvGet url_42; EvSleep 5; EvGet url_42] no_table).
Proof.
  apply (proj1 (poll_loop_bad_answer (script_env no_table) url_42
                  (start {| posts := [];
                            gets := [Ok (response_of "processing");
                                     Err (ExternalError "connection reset")] |})
                  [response_of "processing"]
                  {| posts := []; gets := [Err (ExternalError "connection reset")] |}
                  0%nat
                  ltac:(econstructor; [reflexivity|constructor])
                  ltac:(repeat constructor))).
  reflexivity.
Defined.

(** ** The batch runner on its edge cases *)

Lemma set_at_keeps_cell i j c c' v t :
  c <> c' ->
  (fun r : gmap string pyval => r !! c) <$> rows (set_at i c' v t) !! j =
  (fun r : gmap string pyval => r !! c) <$> rows t !! j.
Proof.
  intros Hne. destruct (decide (i = j)) as [->|Hij].
  - rewrite lookup_set_at_eq. destruct (rows t !! j) as [r|]; [|reflexivity].
    cbn. by rewrite lookup_insert_ne.
  - by rewrite lookup_set_at_ne.
Qed.

Section BatchEdges.
Context {W : Type} (E : env W).

Implicit Types (st : state W) (fuel index : nat) (path : string).

(** The loop keeps the column labels and every cell outside the three
    result columns. *)
Lemma process_rows_frame fuel texts : forall index st out st',
  process_rows E fuel index texts st = (out, st') ->
  columns (df st') = columns (df st) /\
  forall i c,
    c <> rate_column -> c <> category_column -> c <> status_column ->
    (fun r : gmap string pyval => r !! c) <$> rows (df st') !! i =
    (fun r : gmap string pyval => r !! c) <$> rows (df st) !! i.
Proof.
  induction texts as [|text rest IH]; intros index st out st'.
  - cbn. intros [= <- <-]. auto.
  - cbn [process_rows]. unfold bind at 1.
    destruct (process_row E fuel index text st) as [[[]|e0|] st1] eqn:Hrow;
      destruct (process_row_effect _ _ _ _ _ _ _ Hrow)
        as (new & Hq & [(Hout & Htr & rate & cat & s & Hs & Hdf)
                       |[(Hout & e & Htr & Hdf)|(Hout & Htr & Hdf)]]);
      try discriminate Hout.
    + intros Hrest. destruct (IH _ _ _ _ Hrest) as (Hcols & Hcells).
      split; [rewrite Hcols, Hdf; reflexivity|].
      intros i c H1 H2 H3. rewrite Hcells by assumption. rewrite Hdf.
      by rewrite !set_at_keeps_cell.
    + intros Hrest. destruct (IH _ _ _ _ Hrest) as (Hcols & Hcells).
      split; [rewrite Hcols, Hdf; reflexivity|].
      intros i c H1 H2 H3. rewrite Hcells by assumption. rewrite Hdf.
      by rewrite set_at_keeps_cell.
    + intros [= <- <-]. rewrite Hdf. auto.
Qed.

(** What a run past the column check leaves behind: the state in which the
    loop ended, and whether the write was reached. *)
Lemma process_file_after_rows fuel path st table w' out st' :
  read_excel E path (world st) = (Ok table, w') ->
  text_column ∈ columns table ->
  process_file E fuel path st = (out, st') ->
  exists o1 st1,
    process_rows E fuel 0 (cell text_column <$> rows (with_result_columns table))
      (Build_state w' (trace st ++ [EvReadExcel path]) (with_result_columns table))
      = (o1, st1) /\
    df st' = df st1 /\
    (forall e, out = Raise e ->
       exists w2, to_excel E output_path (df st1) (world st1) = (Err e, w2)).
Proof.
  intros Hread Hcol. rewrite (process_file_run _ _ _ _ _ _ Hread Hcol).
  unfold bind at 1.
  destruct (process_rows E fuel 0 _ _) as [o1 st1] eqn:Hrows.
  destruct (process_rows_effect E fuel _ _ _ _ _ Hrows) as (Hnoraise & _).
  intros Hrun. exists o1, st1. split; [reflexivity|].
  destruct o1 as [[]|e1|].
  - revert Hrun. unfold bind at 1, get_df. unfold bind at 1, call.
    destruct (to_excel E output_path (df st1) (world st1)) as [[[]|e2] w2].
    + cbn. intros [= <- <-]. split; [reflexivity|discriminate].
    + cbn. intros [= <- <-]. split; [reflexivity|].
      intros e [= <-]. by exists w2.
  - by destruct (Hnoraise e1).
  - injection Hrun as <- <-. split; [reflexivity|discriminate].
Qed.

(** X13: when the file cannot be read, [process_file] propagates that
    exception; the read is its only effect. *)
Theorem process_file_unreadable fuel path st e w' :
  read_excel E path (world st) = (Err e, w') ->
  process_file E fuel path st =
    (Raise e, Build_state w' (trace st ++ [EvReadExcel path]) (df st)).
Proof.
  intros Hread. unfold process_file, bind at 1, call. rewrite Hread.
  reflexivity.
Qed.

(** X14: past the column check no row can make [process_file] raise: an
    exception that leaves it was raised by the final write of the table. *)
Theorem process_file_raises_only_at_write fuel path st table w' e st' :
  read_excel E path (world st) = (Ok table, w') ->
  text_column ∈ columns table ->
  process_file E fuel path st = (Raise e, st') ->
  exists w1 w2, to_excel E output_path (df st') w1 = (Err e, w2).
Proof.
  intros Hread Hcol Hrun.
  destruct (process_file_after_rows _ _ _ _ _ _ _ Hread Hcol Hrun)
    as (o1 & st1 & _ & Hdf & Hraise).
  destruct (Hraise e eq_refl) as (w2 & Hwrite).
  exists (world st1), w2. by rewrite Hdf.
Qed.

(** X15: the cells of the input outside the three result columns, the text
    among them, are in the table unchanged, however the run ends. *)
Theorem process_file_keeps_input_cells fuel path st table w' out st' i r0 c :
  read_excel E path (world st) = (Ok table, w') ->
  text_column ∈ columns table ->
  process_file E fuel path st = (out, st') ->
  rows table !! i = Some r0 ->
  c <> rate_column -> c <> category_column -> c <> status_column ->
  exists r, rows (df st') !! i = Some r /\ r !! c = r0 !! c.
Proof.
  intros Hread Hcol Hrun Hr0 H1 H2 H3.
  destruct (process_file_after_rows _ _ _ _ _ _ _ Hread Hcol Hrun)
    as (o1 & st1 & Hrows & Hdf & _).
  destruct (process_rows_frame _ _ _ _ _ _ Hrows) as (_ & Hcells).
  specialize (Hcells i c H1 H2 H3). cbn [df] in Hcells.
  rewrite lookup_with_result_columns, Hr0 in Hcells. rewrite Hdf.
  destruct (rows (df st1) !! i) as [r|]; [|discriminate].
  exists r. split; [reflexivity|]. cbn in Hcells. injection Hcells as ->.
  by rewrite !lookup_insert_ne.
Qed.

(** X16: a row whose submit, poll, interpretation and conversion succeed
    gets its three cells, rate then category then status, and the loop goes
    on with the next row. *)
Theorem process_rows_completed_row fuel index text rest st
    execution_id st1 results st2 chance category status rate :
  post_text_to_moderate E text st = (Ret execution_id, st1) ->
  get_moderation_result E fuel execution_id st1 = (Ret results, st2) ->
  process_moderation_results results default_threshold = Ok (chance, category, status) ->
  py_float chance = Ok rate ->
  process_rows E fuel index (text :: rest) st =
    process_rows E fuel (S index) rest
      (Build_state (world st2) (trace st2)
         (set_at index status_column (PStr status)
            (set_at index category_column (PStr (py_str E category))
               (set_at index rate_column (PFloat rate) (df st2))))).
Proof.
  intros Hpost Hpoll Hint Hfloat.
  cbn [process_rows]. unfold bind at 1, process_row, try_except, moderate_row.
  unfold bind at 1. rewrite Hpost. unfold bind at 1. rewrite Hpoll.
  unfold bind at 1. rewrite Hint. cbn [lift ret]. unfold bind at 1.
  rewrite Hfloat. reflexivity.
Qed.

(** X17: a table with the text column and no row is written back with the
    three result columns added, without any request. *)
Theorem process_file_no_rows fuel path st table w' w2 :
  read_excel E path (world st) = (Ok table, w') ->
  text_column ∈ columns table ->
  rows table = [] ->
  to_excel E output_path (with_result_columns table) w' = (Ok tt, w2) ->
  process_file E fuel path st =
    (Ret tt,
     Build_state w2
       (trace st ++ [EvReadExcel path;
                     EvToExcel output_path (with_result_columns table);
                     EvPrint "Results saved"])
       (with_result_columns table)).
Proof.
  intros Hread Hcol Hrows Hwrite.
  rewrite (process_file_run _ _ _ _ _ _ Hread Hcol).
  assert (Hnone : rows (with_result_columns table) = []).
  { apply length_zero_iff_nil. rewrite length_with_result_columns, Hrows.
    reflexivity. }
  rewrite Hnone. cbn [fmap list_fmap process_rows].
  unfold bind, ret, get_df, call, emit. cbn [world trace df].
  rewrite Hwrite. cbn [lift ret world trace df].
  by rewrite <- !app_assoc.
Qed.

(** X18: the table keeps its column labels in order and gains the three
    result columns: every input label is still there, and when none of the
    three was in the input they are appended as rate, category, status. *)
Theorem process_file_columns fuel path st table w' out st' :
  read_excel E path (world st) = (Ok table, w') ->
  text_column ∈ columns table ->
  process_file E fuel path st = (out, st') ->
  (forall c, c ∈ columns table -> c ∈ columns (df st')) /\
  rate_column ∈ columns (df st') /\
  category_column ∈ columns (df st') /\
  status_column ∈ columns (df st') /\
  (rate_column ∉ columns table ->
   category_column ∉ columns table ->
   status_column ∉ columns table ->
   columns (df st') =
     (columns table ++ [rate_column; category_column; status_column])%list).
Proof.
  intros Hread Hcol Hrun.
  destruct (process_file_after_rows _ _ _ _ _ _ _ Hread Hcol Hrun)
    as (o1 & st1 & Hrows & Hdf & _).
  destruct (process_rows_frame _ _ _ _ _ _ Hrows) as (Hcols & _).
  rewrite Hdf, Hcols. cbn [df].
  unfold with_result_columns, set_column. cbn [columns].
  repeat case_bool_decide; repeat split; intros;
    rewrite ?elem_of_app, ?list_elem_of_singleton in *;
    try tauto; try (rewrite <- ?app_assoc; reflexivity);
    try (exfalso; rewrite ?elem_of_app, ?list_elem_of_singleton in *;
         unfold rate_column, category_column, status_column in *; naive_solver).
Qed.

End BatchEdges.

Lemma process_file_unreadable_witness :
  process_file env_unreadable 1 input_path (start world_row2_fails) =
    (Raise (ExternalError "file not found"),
     Build_state world_row2_fails [EvReadExcel input_path] no_table).
Proof.
  apply (process_file_unreadable env_unreadable 1 input_path
           (start world_row2_fails) (ExternalError "file not found")
           world_row2_fails).
  reflexivity.
Defined.

Lemma process_file_raises_only_at_write_witness :
  let run := process_file (env_unwritable three_rows) 1 input_path
               (start world_row2_fails) in
  exists w1 w2,
    to_excel (env_unwritable three_rows) output_path (df (snd run)) w1 =
      (Err (ExternalError "permission denied"), w2).
Proof.
  intros run.
  apply (process_file_raises_only_at_write (env_unwritable three_rows) 1
           input_path (start world_row2_fails) three_rows world_row2_fails
           (ExternalError "permission denied") (snd run)).
  - reflexivity.
  - constructor.
  - vm_compute. reflexivity.
Defined.

Lemma process_file_keeps_input_cells_witness :
  let run := process_file (script_env two_columns) 1 input_path
               (start world_one_ok) in
  exists r,
    rows (df (snd run)) !! 0%nat = Some r /\
    r !! "Source" =
      (list_to_map [(text_column, PStr "first"); ("Source", PStr "forum")]
         : gmap string pyval) !! "Source".
Proof.
  intros run.
  apply (process_file_keeps_input_cells (script_env two_columns) 1 input_path
           (start world_one_ok) two_columns world_one_ok (fst run) (snd run)).
  - reflexivity.
  - constructor.
  - apply surjective_pairing.
  - reflexivity.
  - discriminate.
  - discriminate.
  - discriminate.
Defined.

Lemma process_rows_completed_row_witness :
  process_rows (script_env one_row) 1 0 [PStr "first"] (start world_one_ok) =
    process_rows (script_env one_row) 1 1 []
      (Build_state {| posts := []; gets := [] |}
         [EvPost post_url (obj [("text", PStr "first")]);
          EvGet "https://api.test/moderation/1"]
         (set_at 0 status_column (PStr "rejected")
            (set_at 0 category_column (PStr "A")
               (set_at 0 rate_column (PFloat 50) no_table)))).
Proof.
  apply (process_rows_completed_row (script_env one_row) 1 0 (PStr "first") []
           (start world_one_ok) (PStr "1")
           (Build_state {| posts := []; gets := gets world_one_ok |}
              [EvPost post_url (obj [("text", PStr "first")])] no_table)
           payload_half
           (Build_state {| posts := []; gets := [] |}
              [EvPost post_url (obj [("text", PStr "first")]);
               EvGet "https://api.test/moderation/1"] no_table)
           (NFloat 50) (PStr "A") "rejected" 50%float).
  - reflexivity.
  - reflexivity.
  - vm_compute. reflexivity.
  - reflexivity.
Defined.

Lemma process_file_no_rows_witness :
  process_file (script_env no_rows) 1 input_path (start world_row2_fails) =
    (Ret tt,
     Build_state world_row2_fails
       [EvReadExcel input_path;
        EvToExcel output_path (with_result_columns no_rows);
        EvPrint "Results saved"]
       (with_result_columns no_rows)).
Proof.
  apply (process_file_no_rows (script_env no_rows) 1 input_path
           (start world_row2_fails) no_rows world_row2_fails world_row2_fails).
  - reflexivity.
  - constructor.
  - reflexivity.
  - reflexivity.
Defined.

Lemma process_file_columns_witness :
  let run := process_file (script_env three_rows) 1 input_path
               (start world_row2_fails) in
  (forall c, c ∈ columns three_rows -> c ∈ columns (df (snd run))) /\
  rate_column ∈ columns (df (snd run)) /\
  category_column ∈ columns (df (snd run)) /\
  status_column ∈ columns (df (snd run)) /\
  (rate_column ∉ columns three_rows ->
   category_column ∉ columns three_rows ->
   status_column ∉ columns three_rows ->
   columns (df (snd run)) =
     (columns three_rows ++ [rate_column; category_column; status_column])%list).
Proof.
  intros run.
  apply (process_file_columns (script_env three_rows) 1 input_path
           (start world_row2_fails) three_rows world_row2_fails (fst run)).
  - reflexivity.
  - constructor.
  - apply surjective_pairing.
Defined.

(** ** The interactive runner and the menu *)

Section InteractiveEdges.
Context {W : Type} (E : env W) (C : console W).

Implicit Types (st : state W) (fuel : nat) (text : string).

Lemma row_raises_moderate_text fuel text st e st' :
  row_raises E fuel (PStr text) st e st' ->
  moderate_text E C fuel text st = (Raise e, st').
Proof.
  intros [st1 Hpost|id st1 st2 Hpost Hpoll|id st1 results st2 Hpost Hpoll Hint];
    unfold moderate_text, bind at 1; rewrite Hpost; try reflexivity;
    unfold bind at 1; rewrite Hpoll; try reflexivity.
  unfold bind at 1. rewrite Hint. reflexivity.
Qed.

(** X19: in the single-text mode an exception of submit, poll or interpret is
    caught: one line "Error: ..." is printed and the function returns. *)
Theorem test_single_text_reports_failure fuel st text w1 e st2 :
  input C "Enter the text to moderate: " (world st) = (Ok text, w1) ->
  row_raises E fuel (PStr text) (Build_state w1 (trace st) (df st)) e st2 ->
  test_single_text E C fuel st =
    (Ret tt,
     Build_state (world st2)
       (trace st2 ++ [EvPrint ("Error: " +:+ message C e)]) (df st2)).
Proof.
  intros Hin Hraises. unfold test_single_text, bind at 1, ask.
  rewrite Hin. cbn [lift ret]. unfold try_except.
  rewrite (row_raises_moderate_text _ _ _ _ _ Hraises).
  reflexivity.
Qed.

(** X20: in the single-text mode a moderated text whose rate converts to a
    float is reported on four lines: the banner, the formatted rate, the
    category and the status. *)
Theorem test_single_text_prints_result fuel st text w1
    execution_id st1 results st2 chance category status rate :
  input C "Enter the text to moderate: " (world st) = (Ok text, w1) ->
  post_text_to_moderate E (PStr text) (Build_state w1 (trace st) (df st))
    = (Ret execution_id, st1) ->
  get_moderation_result E fuel execution_id st1 = (Ret results, st2) ->
  process_moderation_results results default_threshold = Ok (chance, category, status) ->
  py_float chance = Ok rate ->
  test_single_text E C fuel st =
    (Ret tt,
     Build_state (world st2)
       (trace st2 ++
          [EvPrint results_banner;
           EvPrint ("Rejection Chance: " +:+ format_2f C rate +:+ "%");
           EvPrint ("Category: " +:+ py_str E category);
           EvPrint ("Status: " +:+ status)])
       (df st2)).
Proof.
  intros Hin Hpost Hpoll Hint Hfloat. unfold test_single_text, bind at 1, ask.
  rewrite Hin. cbn [lift ret]. unfold try_except, moderate_text.
  unfold bind at 1. rewrite Hpost. unfold bind at 1. rewrite Hpoll.
  unfold bind at 1. rewrite Hint. cbn [lift ret].
  unfold bind, print, emit. cbn [world trace df]. rewrite Hfloat.
  cbn [lift ret world trace df].
  by rewrite <- !app_assoc.
Qed.

(** X26: in the single-text mode a rate that is an integer beyond the range
    of a float makes the format raise after the banner: the banner and one
    line "Error: ..." are printed and the function returns. *)
Theorem test_single_text_rate_overflow fuel st text w1
    execution_id st1 results st2 chance category status e :
  input C "Enter the text to moderate: " (world st) = (Ok text, w1) ->
  post_text_to_moderate E (PStr text) (Build_state w1 (trace st) (df st))
    = (Ret execution_id, st1) ->
  get_moderation_result E fuel execution_id st1 = (Ret results, st2) ->
  process_moderation_results results default_threshold = Ok (chance, category, status) ->
  py_float chance = Err e ->
  test_single_text E C fuel st =
    (Ret tt,
     Build_state (world st2)
       (trace st2 ++
          [EvPrint results_banner; EvPrint ("Error: " +:+ message C e)])
       (df st2)).
Proof.
  intros Hin Hpost Hpoll Hint Hfloat. unfold test_single_text, bind at 1, ask.
  rewrite Hin. cbn [lift ret]. unfold try_except, moderate_text.
  unfold bind at 1. rewrite Hpost. unfold bind at 1. rewrite Hpoll.
  unfold bind at 1. rewrite Hint. cbn [lift ret].
  unfold bind, print, emit. cbn [world trace df]. rewrite Hfloat.
  cbn [lift raise]. unfold report_error, print, emit. cbn [world trace df].
  by rewrite <- !app_assoc.
Qed.

(** X21: once the text is read, the single-text mode never raises: it
    returns, or it is still polling. *)
Theorem test_single_text_never_raises fuel st text w1 out st' :
  input C "Enter the text to moderate: " (world st) = (Ok text, w1) ->
  test_single_text E C fuel st = (out, st') ->
  out = Ret tt \/ out = Unfinished.
Proof.
  intros Hin. unfold test_single_text, bind at 1, ask.
  rewrite Hin. cbn [lift ret]. unfold try_except.
  destruct (moderate_text E C fuel text _) as [[[]|e|] s].
  - intros [= <- <-]. by left.
  - unfold report_error, print, emit. intros [= <- <-]. by left.
  - intros [= <- <-]. by right.
Qed.

(** X22: a menu answer other than "1" and "2" prints the menu and the
    invalid-choice line and ends; nothing is read, sent or written. *)
Theorem main_invalid_choice fuel st choice w1 :
  input C "Your choice (1 or 2): " (world st) = (Ok choice, w1) ->
  choice <> "1" ->
  choice <> "2" ->
  main E C fuel st =
    (Ret tt,
     Build_state w1
       (trace st ++ menu ++ [EvPrint "Invalid choice. Please restart the script."])
       (df st)).
Proof.
  intros Hin H1 H2. unfold main, bind, print, emit, ask.
  cbn [world trace df]. rewrite Hin. cbn [lift ret].
  apply String.eqb_neq in H1. apply String.eqb_neq in H2.
  rewrite H1, H2. cbn [world trace df]. unfold menu.
  by rewrite <- !app_assoc.
Qed.

(** X23: in the batch mode a file without the text column is reported with
    one line "Error: ..." and the program ends normally, without a request. *)
Theorem main_reports_missing_column fuel st w1 path w2 table w3 :
  input C "Your choice (1 or 2): " (world st) = (Ok "1", w1) ->
  input C "Enter the path to the input Excel file: " w1 = (Ok path, w2) ->
  read_excel E path w2 = (Ok table, w3) ->
  text_column ∉ columns table ->
  main E C fuel st =
    (Ret tt,
     Build_state w3
       (trace st ++ menu ++
          [EvReadExcel path; EvPrint ("Error: " +:+ message C MissingColumnError)])
       table).
Proof.
  intros Hchoice Hpath Hread Hcol. unfold main.
  unfold bind at 1, print, emit. unfold bind at 1. unfold bind at 1.
  unfold bind at 1, ask. cbn [world trace df]. rewrite Hchoice.
  cbn [lift ret]. change (String.eqb "1" "1") with true. cbv iota.
  unfold bind at 1. cbn [world trace df]. rewrite Hpath. cbn [lift ret].
  unfold try_except.
  rewrite (process_file_missing_column E fuel path _ table w3) by assumption.
  unfold report_error, print, emit. cbn [world trace df]. unfold menu.
  by rewrite <- !app_assoc.
Qed.

End InteractiveEdges.

Lemma test_single_text_reports_failure_witness :
  test_single_text (script_env no_table) (operator "2" "some text") 1
    (start world_without_id) =
    (Ret tt,
     Build_state {| posts := []; gets := [] |}
       [EvPost post_url (obj [("text", PStr "some text")]);
        EvPrint "Error: <error>"] no_table).
Proof.
  apply (test_single_text_reports_failure (script_env no_table)
           (operator "2" "some text") 1 (start world_without_id) "some text"
           world_without_id SubmissionError
           (Build_state {| posts := []; gets := [] |}
              [EvPost post_url (obj [("text", PStr "some text")])] no_table)).
  - reflexivity.
  - apply raises_submit. reflexivity.
Defined.

Lemma test_single_text_prints_result_witness :
  test_single_text (script_env no_table) (operator "2" "first") 1
    (start world_one_ok) =
    (Ret tt,
     Build_state {| posts := []; gets := [] |}
       [EvPost post_url (obj [("text", PStr "first")]);
        EvGet "https://api.test/moderation/1";
        EvPrint results_banner;
        EvPrint "Rejection Chance: <rate>%";
        EvPrint "Category: A";
        EvPrint "Status: rejected"] no_table).
Proof.
  apply (test_single_text_prints_result (script_env no_table)
           (operator "2" "first") 1 (start world_one_ok) "first" world_one_ok
           (PStr "1")
           (Build_state {| posts := []; gets := gets world_one_ok |}
              [EvPost post_url (obj [("text", PStr "first")])] no_table)
           payload_half
           (Build_state {| posts := []; gets := [] |}
              [EvPost post_url (obj [("text", PStr "first")]);
               EvGet "https://api.test/moderation/1"] no_table)
           (NFloat 50) (PStr "A") "rejected" 50%float).
  - reflexivity.
  - reflexivity.
  - reflexivity.
  - vm_compute. reflexivity.
  - reflexivity.
Defined.

Lemma test_single_text_rate_overflow_witness :
  test_single_text (script_env no_table) (operator "2" "first") 1
    (start world_huge_score) =
    (Ret tt,
     Build_state {| posts := []; gets := [] |}
       [EvPost post_url (obj [("text", PStr "first")]);
        EvGet "https://api.test/moderation/1";
        EvPrint results_banner;
        EvPrint "Error: <error>"] no_table).
Proof.
  apply (test_single_text_rate_overflow (script_env no_table)
           (operator "2" "first") 1 (start world_huge_score) "first"
           world_huge_score (PStr "1")
           (Build_state {| posts := []; gets := gets world_huge_score |}
              [EvPost post_url (obj [("text", PStr "first")])] no_table)
           (payload_of [obj [("nsfw_likelihood_score", PInt (2 ^ 1024))]])
           (Build_state {| posts := []; gets := [] |}
              [EvPost post_url (obj [("text", PStr "first")]);
               EvGet "https://api.test/moderation/1"] no_table)
           (NInt (2 ^ 1024 * 100)) (PStr "Unknown") "rejected" OverflowError).
  - reflexivity.
  - reflexivity.
  - reflexivity.
  - vm_compute. reflexivity.
  - vm_compute. reflexivity.
Defined.

Lemma test_single_text_never_raises_witness :
  let run := test_single_text busy_env (operator "2" "some text") 4 (start tt) in
  fst run = Ret tt \/ fst run = Unfinished.
Proof.
  intros run.
  apply (test_single_text_never_raises busy_env (operator "2" "some text") 4
           (start tt) "some text" tt (fst run) (snd run)).
  - reflexivity.
  - apply surjective_pairing.
Defined.

Lemma main_invalid_choice_witness :
  main (script_env three_rows) (operator "3" input_path) 1 (start world_row2_fails) =
    (Ret tt,
     Build_state world_row2_fails
       (menu ++ [EvPrint "Invalid choice. Please restart the script."])
       no_table).
Proof.
  apply (main_invalid_choice (script_env three_rows) (operator "3" input_path) 1
           (start world_row2_fails) "3" world_row2_fails).
  - reflexivity.
  - discriminate.
  - discriminate.
Defined.

Lemma main_reports_missing_column_witness :
  main (script_env wrong_header) (operator "1" input_path) 1 (start world_row2_fails) =
    (Ret tt,
     Build_state world_row2_fails
       (menu ++ [EvReadExcel input_path; EvPrint "Error: <error>"])
       wrong_header).
Proof.
  apply (main_reports_missing_column (script_env wrong_header)
           (operator "1" input_path) 1 (start world_row2_fails) world_row2_fails
           input_path world_row2_fails wrong_header world_row2_fails).
  - reflexivity.
  - reflexivity.
  - reflexivity.
  - vm_compute. intros H. inversion H as [|? ? ? H']; subst. inversion H'.
Defined.

(** ** Requests per row *)

Lemma posted_app l1 l2 : posted (l1 ++ l2) = (posted l1 ++ posted l2)%list.
Proof.
  induction l1 as [|e l IH]; [reflexivity|].
  destruct e; cbn; rewrite IH; reflexivity.
Qed.

Lemma posted_silent new :
  Forall (fun e => is_post e = false) new -> posted new = [].
Proof.
  induction 1 as [|e l He _ IH]; [reflexivity|].
  destruct e; try discriminate He; exact IH.
Qed.

Section Silent.
Context {W : Type} (p : event -> bool).

Lemma silent_ret {A} (a : A) : silent p (@ret W A a).
Proof.
  intros st out st' [= <- <-]. exists []. split; [by rewrite app_nil_r|constructor].
Qed.

Lemma silent_raise {A} e : silent p (@raise W A e).
Proof.
  intros st out st' [= <- <-]. exists []. split; [by rewrite app_nil_r|constructor].
Qed.

Lemma silent_lift {A} (r : res A) : silent p (@lift W A r).
Proof. destruct r; [apply silent_ret|apply silent_raise]. Qed.

Lemma silent_emit ev : p ev = false -> silent p (@emit W ev).
Proof.
  intros Hev st out st' [= <- <-]. exists [ev]. split; [reflexivity|by constructor].
Qed.

Lemma silent_call {A} ev (f : W -> res A * W) : p ev = false -> silent p (call ev f).
Proof.
  intros Hev st out st'. unfold call.
  destruct (f (world st)) as [[a|e] w1]; intros [= <- <-];
    exists [ev]; (split; [reflexivity|by constructor]).
Qed.

Lemma silent_bind {A B} (m : M W A) (k : A -> M W B) :
  silent p m -> (forall a, silent p (k a)) -> silent p (bind m k).
Proof.
  intros Hm Hk st out st'. unfold bind.
  destruct (m st) as [[a|e|] st1] eqn:Hrun.
  - intros Hrest. destruct (Hm _ _ _ Hrun) as (new1 & Htr1 & Hq1).
    destruct (Hk a _ _ _ Hrest) as (new2 & Htr2 & Hq2).
    exists (new1 ++ new2)%list.
    split; [rewrite Htr2, Htr1; by rewrite app_assoc|by apply Forall_app_2].
  - intros [= <- <-]. exact (Hm _ _ _ Hrun).
  - intros [= <- <-]. exact (Hm _ _ _ Hrun).
Qed.

End Silent.

Section Requests.
Context {W : Type} (E : env W).

Implicit Types (st : state W) (fuel index : nat).

Lemma silent_get_moderation_result fuel execution_id :
  silent is_post (get_moderation_result E fuel execution_id).
Proof.
  unfold get_moderation_result.
  apply silent_bind; [apply silent_lift|intros url].
  induction fuel as [|fuel IH]; cbn [poll_loop].
  - intros st out st' [= <- <-]. exists [].
    split; [by rewrite app_nil_r|constructor].
  - apply silent_bind; [by apply silent_call|intros result].
    apply silent_bind; [apply silent_lift|intros status].
    destruct (is_str "succeeded" status); [apply silent_ret|].
    destruct (is_str "failed" status); [apply silent_raise|].
    destruct (is_str "processing" status); [|apply silent_raise].
    apply silent_bind; [by apply silent_emit|intros _; exact IH].
Qed.

(** Submit makes its one request whatever the answer. *)
Lemma post_text_to_moderate_trace text st out st' :
  post_text_to_moderate E text st = (out, st') ->
  trace st' = (trace st ++ [EvPost (API_URL_POST E) (obj [("text", text)])])%list.
Proof.
  unfold post_text_to_moderate, bind, call.
  destruct (requests_post E _ _ _) as [[r|e] w1]; cbn [lift ret raise].
  - destruct (py_contains "id" r) as [[]|e]; cbn [lift ret raise].
    + destruct (py_getitem r "id"); cbn; by intros [= <- <-].
    + by intros [= <- <-].
    + by intros [= <- <-].
  - by intros [= <- <-].
Qed.

(** The [try] block makes exactly one POST, of the text of its row, however
    it ends. *)
Lemma moderate_row_posts fuel index text st out st' :
  moderate_row E fuel index text st = (out, st') ->
  exists new,
    trace st' = (trace st ++ new)%list /\
    posted new = [request_for E text].
Proof.
  unfold moderate_row, bind at 1.
  destruct (post_text_to_moderate E text st) as [[id|e|] st1] eqn:Hpost;
    pose proof (post_text_to_moderate_trace _ _ _ _ Hpost) as Htr1;
    [|intros [= <- <-]; eexists; (split; [exact Htr1|reflexivity])..].
  unfold bind at 1.
  destruct (get_moderation_result E fuel id st1) as [[results|e|] st2] eqn:Hpoll;
    destruct (silent_get_moderation_result fuel id _ _ _ Hpoll) as (new & Htr2 & Hq);
    assert (Htr : trace st2 =
                  (trace st ++
                     [EvPost (API_URL_POST E) (obj [("text", text)])] ++ new)%list)
      by (rewrite Htr2, Htr1; by rewrite <- app_assoc);
    assert (Hn : posted
                   ([EvPost (API_URL_POST E) (obj [("text", text)])] ++ new)
                 = [request_for E text])
      by (rewrite posted_app, (posted_silent _ Hq); reflexivity);
    [|intros [= <- <-]; eexists; (split; [exact Htr|exact Hn])..].
  unfold bind at 1.
  destruct (process_moderation_results results default_threshold)
    as [[[chance category] status]|e]; cbn [lift ret raise];
    [|intros [= <- <-]; eexists; (split; [exact Htr|exact Hn])].
  unfold bind at 1.
  destruct (py_float chance) as [rate|e]; cbn [lift ret raise];
    [|intros [= <- <-]; eexists; (split; [exact Htr|exact Hn])].
  unfold bind, modify_df. cbn [world trace df]. intros [= <- <-]. cbn [trace].
  eexists; (split; [exact Htr|exact Hn]).
Qed.

(** One iteration makes exactly one POST, however it ends. *)
Lemma process_row_posts fuel index text st out st' :
  process_row E fuel index text st = (out, st') ->
  exists new,
    trace st' = (trace st ++ new)%list /\
    posted new = [request_for E text].
Proof.
  unfold process_row, try_except.
  destruct (moderate_row E fuel index text st) as [[[]|e|] st1] eqn:Hrow;
    destruct (moderate_row_posts _ _ _ _ _ _ Hrow) as (new & Htr & Hn).
  - intros [= <- <-]. by exists new.
  - unfold on_error, bind, emit, modify_df. cbn [world trace df].
    intros [= <- <-]. cbn [trace]. exists (new ++ [EvWrite index e])%list.
    split; [rewrite Htr; by rewrite <- app_assoc|].
    rewrite posted_app, Hn. reflexivity.
  - intros [= <- <-]. by exists new.
Qed.

Lemma process_rows_posts fuel texts : forall index st st',
  process_rows E fuel index texts st = (Ret tt, st') ->
  exists new,
    trace st' = (trace st ++ new)%list /\
    posted new = request_for E <$> texts.
Proof.
  induction texts as [|text rest IH]; intros index st st'.
  - cbn. intros [= <-]. exists []. split; [by rewrite app_nil_r|reflexivity].
  - cbn [process_rows]. unfold bind at 1.
    destruct (process_row E fuel index text st) as [[[]|e|] st1] eqn:Hrow;
      [|discriminate..].
    intros Hrest.
    destruct (process_row_posts _ _ _ _ _ _ Hrow) as (new1 & Htr1 & Hn1).
    destruct (IH _ _ _ Hrest) as (new2 & Htr2 & Hn2).
    exists (new1 ++ new2)%list.
    split; [rewrite Htr2, Htr1; by rewrite app_assoc|].
    rewrite posted_app, Hn1, Hn2. reflexivity.
Qed.

(** X24: the POST requests of a batch that completes are, in the order of
    the rows, one request per input row carrying the text cell of that row
    to the submit URL: each text is submitted exactly once, also when its row
    failed, and nothing else is posted. *)
Theorem process_file_one_post_per_row fuel path st table w' st' :
  read_excel E path (world st) = (Ok table, w') ->
  text_column ∈ columns table ->
  process_file E fuel path st = (Ret tt, st') ->
  exists new,
    trace st' = (trace st ++ new)%list /\
    posted new =
      (fun row => (API_URL_POST E, obj [("text", cell text_column row)]))
        <$> rows table.
Proof.
  intros Hread Hcol. rewrite (process_file_run _ _ _ _ _ _ Hread Hcol).
  rewrite texts_with_result_columns.
  unfold bind at 1.
  destruct (process_rows E fuel 0 _ _) as [[[]|e|] st1] eqn:Hrows;
    [|discriminate..].
  destruct (process_rows_posts _ _ _ _ _ Hrows) as (new & Htr & Hn).
  rewrite <- list_fmap_compose in Hn. cbn [trace] in Htr.
  unfold bind at 1, get_df. unfold bind at 1, call.
  destruct (to_excel E output_path (df st1) (world st1)) as [[[]|e] w2];
    cbn [lift ret raise]; [|discriminate].
  unfold emit. cbn [world trace df]. intros [= <-]. cbn [trace].
  eexists. split; [rewrite Htr; by rewrite <- !app_assoc|].
  rewrite !posted_app, Hn. cbn. by rewrite app_nil_r.
Qed.

(** X25: a batch that completes ends by writing the table it computed to the
    fixed output path and printing "Results saved". *)
Theorem process_file_writes_result fuel path st table w' st' :
  read_excel E path (world st) = (Ok table, w') ->
  text_column ∈ columns table ->
  process_file E fuel path st = (Ret tt, st') ->
  exists before,
    trace st' =
      (before ++ [EvToExcel "SyntheticDataResult.xlsx" (df st');
                  EvPrint "Results saved"])%list.
Proof.
  intros Hread Hcol. rewrite (process_file_run _ _ _ _ _ _ Hread Hcol).
  unfold bind at 1.
  destruct (process_rows E fuel 0 _ _) as [[[]|e|] st1] eqn:Hrows;
    [|discriminate..].
  unfold bind at 1, get_df. unfold bind at 1, call.
  destruct (to_excel E output_path (df st1) (world st1)) as [[[]|e] w2];
    cbn [lift ret raise]; [|discriminate].
  unfold emit. cbn [world trace df]. intros [= <-]. cbn [trace df].
  exists (trace st1). by rewrite <- app_assoc.
Qed.

End Requests.

Lemma process_file_one_post_per_row_witness :
  exists new,
    trace (Build_state {| posts := []; gets := [] |} trace_row2_fails three_outcomes)
      = ([] ++ new)%list /\
    posted new =
      [(post_url, obj [("text", PStr "first")]);
       (post_url, obj [("text", PStr "second")]);
       (post_url, obj [("text", PStr "third")])].
Proof.
  apply (process_file_one_post_per_row (script_env three_rows) 1 input_path
           (start world_row2_fails) three_rows world_row2_fails).
  - reflexivity.
  - constructor.
  - vm_compute. reflexivity.
Defined.

Lemma process_file_writes_result_witness :
  exists before,
    trace (Build_state {| posts := []; gets := [] |} trace_row2_fails three_outcomes)
      = (before ++ [EvToExcel "SyntheticDataResult.xlsx" three_outcomes;
                    EvPrint "Results saved"])%list.
Proof.
  apply (process_file_writes_result (script_env three_rows) 1 input_path
           (start world_row2_fails) three_rows world_row2_fails).
  - reflexivity.
  - constructor.
  - vm_compute. reflexivity.
Defined.
